(** * Scraper message store: dispatched messages and deliveries

    Shallow embedding of [rust/agents/scraper/src/db/message.rs].

    The relational store is modelled as two tables (lists of rows, each
    with the id drawn from its own sequence) together with a flag telling
    whether the store answers queries at all.  The sea-orm calls of the
    source are given the semantics they have on PostgreSQL:
    - an aggregate [MAX] without [GROUP BY] returns exactly one row, whose
      value is NULL on an empty set; with [GROUP BY] an empty set returns
      no row;
    - decoding a NULL into a non-[Option] Rust type ([i32], [i64]) is an
      error, decoding it into an [Option] gives [None];
    - [Insert::many(..).on_conflict(..)] is one
      [INSERT .. ON CONFLICT (key) DO UPDATE SET c = EXCLUDED.c] statement:
      every proposed row draws an id from the sequence, a row whose key is
      already present updates the listed columns of that row, and a key
      met twice in one statement aborts the whole statement ("ON CONFLICT
      DO UPDATE command cannot affect row a second time"); the sequence is
      not rolled back;
    - a filter [Column.eq(v)] with [v : u32] compares numerically: sea-orm
      binds a [u32] as a 64-bit integer, while the [i32] columns hold the
      values written with [as i32]. *)

From Stdlib Require Import String ZArith List Bool Lia.
From Stdlib Require Import Strings.Byte.
Import ListNotations.
Open Scope Z_scope.

(** ** Machine integers *)

(** [x as i32] for [x : u32]. *)
Definition u32_as_i32 (x : Z) : Z :=
  if x <? 2 ^ 31 then x else x - 2 ^ 32.

(** [v as u32] for [v : i32]. *)
Definition i32_as_u32 (v : Z) : Z := v mod 2 ^ 32.

Definition is_u32 (x : Z) : bool := (0 <=? x) && (x <? 2 ^ 32).

Definition is_i32 (v : Z) : bool := (- 2 ^ 31 <=? v) && (v <? 2 ^ 31).

(** ** Bytes and addresses *)

Definition bytes := list byte.
Definition H256 := list byte.

Definition bytes_eqb (a b : bytes) : bool :=
  if list_eq_dec byte_eq_dec a b then true else false.

(** Modelled from the spec: [address_to_bytes] of [crate::conversions]
    (not part of the sources given), "address values <-> fixed-width byte
    encodings" with "address/byte-width normalization": a 32-byte address
    whose first 12 bytes are zero is written as its last 20 bytes. *)
Definition address_to_bytes (a : H256) : bytes :=
  if forallb (Byte.eqb x00) (firstn 12 a) then skipn 12 a else a.

(** Errors of the [eyre::Result]s of the source. *)
Inductive error :=
  | QueryError                (** the store failed to run a query *)
  | NullValue                 (** a NULL decoded into a non-optional type *)
  | CardinalityViolation      (** a key met twice in one upsert statement *)
  | InvalidAddress            (** [bytes_to_address] on a wrong width *)
  | Report (msg : string).    (** [eyre::eyre!(msg)] *)

Inductive result (A : Type) :=
  | Ok (a : A)
  | Err (e : error)
  | Panic.
Arguments Ok {A} a.
Arguments Err {A} e.
Arguments Panic {A}.

(** Modelled from the spec: [bytes_to_address] of [crate::conversions],
    the inverse normalization; "fails with a DecodeError if a stored byte
    string cannot be interpreted as a valid address width". *)
Definition bytes_to_address (data : bytes) : result H256 :=
  if Nat.eqb (length data) 20 then Ok (repeat x00 12 ++ data)
  else if Nat.eqb (length data) 32 then Ok data
  else Err InvalidAddress.

(** Modelled from the spec: [h256_to_bytes] of [crate::conversions], the
    32 bytes of the hash. *)
Definition h256_to_bytes (h : H256) : bytes := h.

(** ** Protocol values *)

Record HyperlaneMessage := mk_message {
  version : Z;
  nonce : Z;
  origin : Z;
  sender : H256;
  destination : Z;
  recipient : H256;
  body : bytes }.

(** [HyperlaneMessage::id]: the content hash of the message. *)
Class MessageId := message_id : HyperlaneMessage -> H256.

(** The [LogMeta] reference of the source is not read by this file and is
    left out. *)
Record StorableMessage := mk_storable_message {
  msg : HyperlaneMessage;
  txn_id : Z }.

Record StorableDelivery := mk_storable_delivery {
  delivery_message_id : H256;
  delivery_txn_id : Z }.

(** ** Rows *)

Record message_row := mk_message_row {
  m_id : Z;
  m_time_created : Z;
  m_msg_id : bytes;
  m_origin : Z;
  m_destination : Z;
  m_nonce : Z;
  m_sender : bytes;
  m_recipient : bytes;
  m_msg_body : option bytes;
  m_origin_mailbox : bytes;
  m_origin_tx_id : Z }.

(** [message::ActiveModel] built by [store_dispatched_messages]: every
    column but [id], which is [NotSet]. *)
Record message_model := mk_message_model {
  a_time_created : Z;
  a_msg_id : bytes;
  a_origin : Z;
  a_destination : Z;
  a_nonce : Z;
  a_sender : bytes;
  a_recipient : bytes;
  a_msg_body : option bytes;
  a_origin_mailbox : bytes;
  a_origin_tx_id : Z }.

Record delivered_row := mk_delivered_row {
  d_id : Z;
  d_time_created : Z;
  d_msg_id : bytes;
  d_domain : Z;
  d_destination_mailbox : bytes;
  d_destination_tx_id : Z }.

Record delivered_model := mk_delivered_model {
  da_time_created : Z;
  da_msg_id : bytes;
  da_domain : Z;
  da_destination_mailbox : bytes;
  da_destination_tx_id : Z }.

Record db := mk_db {
  messages : list message_row;
  message_seq : Z;            (** next value of the [message.id] sequence *)
  delivered_messages : list delivered_row;
  delivered_seq : Z;          (** next value of [delivered_message.id] *)
  db_up : bool }.             (** the store answers queries; it is fixed
                                 within one call, so a failure between two
                                 queries of one call is not represented *)

(** ** The store monad: state passing over [db] with [eyre] errors and
    panics *)

Definition M (A : Type) := db -> db * result A.

Definition ret {A} (a : A) : M A := fun d => (d, Ok a).

Definition bind {A B} (m : M A) (k : A -> M B) : M B := fun d =>
  match m d with
  | (d', Ok a) => k a d'
  | (d', Err e) => (d', Err e)
  | (d', Panic) => (d', Panic)
  end.

Notation "x <- m ;; k" := (bind m (fun x => k))
  (at level 61, m at next level, right associativity).
Notation "m ;; k" := (bind m (fun _ => k)) (at level 61, right associativity).

Definition throw {A} (e : error) : M A := fun d => (d, Err e).

(** The [?] operator on a pure [Result]. *)
Definition lift {A} (r : result A) : M A := fun d => (d, r).

(** Running a read-only query: it fails when the store is down. *)
Definition query {A} (f : db -> A) : M A := fun d =>
  if db_up d then (d, Ok (f d)) else (d, Err QueryError).

(** [debug_assert!] is only checked in builds with debug assertions. *)
Inductive build := Debug | Release.

Definition debug_assert (mode : build) (cond : bool) : M unit := fun d =>
  match mode with
  | Debug => if cond then (d, Ok tt) else (d, Panic)
  | Release => (d, Ok tt)
  end.

(** ** SQL helpers *)

(** [MAX(col)] over a set of values: NULL ([None]) on the empty set. *)
Fixpoint sql_max (l : list Z) : option Z :=
  match l with
  | [] => None
  | x :: t =>
      match sql_max t with
      | None => Some x
      | Some m => Some (Z.max x m)
      end
  end.

(** [.into_values::<T>().one()] for a non-optional [T]: the outer option
    is "some row", a NULL value in that row is a decoding error. *)
Definition decode_non_null {A} (row : option (option A)) : result (option A) :=
  match row with
  | None => Ok None
  | Some None => Err NullValue
  | Some (Some v) => Ok (Some v)
  end.

(** ** Dispatched messages: queries *)

Definition message_filter (origin_domain : Z) (origin_mailbox : bytes)
    (r : message_row) : bool :=
  (m_origin r =? origin_domain) && bytes_eqb (m_origin_mailbox r) origin_mailbox.

Definition message_nonce_filter (origin_domain : Z) (origin_mailbox : bytes)
    (n : Z) (r : message_row) : bool :=
  message_filter origin_domain origin_mailbox r && (m_nonce r =? n).



Definition unwrap_or {A} (o : option A) (dflt : A) : A :=
  match o with Some v => v | None => dflt end.

(** [retrieve_message_by_nonce]: [.one()] returns a matching row. *)
Definition retrieve_message_by_nonce (origin_domain : Z) (origin_mailbox : H256)
    (nonce : Z) : M (option HyperlaneMessage) :=
  found <- query (fun d =>
             find (message_nonce_filter origin_domain (address_to_bytes origin_mailbox) nonce)
               (messages d)) ;;
  match found with
  | Some message =>
      sender <- lift (bytes_to_address (m_sender message)) ;;
      recipient <- lift (bytes_to_address (m_recipient message)) ;;
      ret (Some {| version := 3;
                   origin := i32_as_u32 (m_origin message);
                   destination := i32_as_u32 (m_destination message);
                   nonce := i32_as_u32 (m_nonce message);
                   sender := sender;
                   recipient := recipient;
                   body := unwrap_or (m_msg_body message) [] |})
  | None => ret None
  end.

(** [GROUP BY origin] over the matching rows, [.one()] takes the first
    group: no row at all when nothing matches. *)
Definition group_by_origin_max (f : message_row -> Z) (rows : list message_row)
    : option (option Z) :=
  match rows with
  | [] => None
  | r :: _ => Some (sql_max (map f (filter (fun r' => m_origin r' =? m_origin r) rows)))
  end.

Definition retrieve_dispatched_tx_id (origin_domain : Z) (origin_mailbox : H256)
    (nonce : Z) : M (option Z) :=
  row <- query (fun d =>
           group_by_origin_max m_origin_tx_id
             (filter (message_nonce_filter origin_domain (address_to_bytes origin_mailbox) nonce)
                (messages d))) ;;
  lift (decode_non_null row).

(** [into_tuple::<Option<i64>>().one()]: the outer option is "some row",
    the inner one the possibly NULL maximum. *)
Definition latest_dispatched_id (domain : Z) (origin_mailbox : bytes) : M Z :=
  result <- query (fun d =>
              Some (sql_max (map m_id
                (filter (message_filter domain origin_mailbox) (messages d))))) ;;
  match result with
  | None => throw (Report "Error getting latest dispatched id"%string)
  | Some inner => ret (unwrap_or inner 0)
  end.

Definition dispatch_count_since_id (domain : Z) (origin_mailbox : bytes)
    (prev_id : Z) : M Z :=
  query (fun d =>
    Z.of_nat (length (filter (fun r => message_filter domain origin_mailbox r && (prev_id <? m_id r))
                        (messages d)))).

(** ** [INSERT .. ON CONFLICT (key) DO UPDATE]

    One statement over the proposed rows, in order.  Each proposed row
    draws the next id of the sequence; [affected] holds the keys the
    statement has already inserted or updated.  [None] is the abort of the
    whole statement. *)
Section Upsert.
Context {Row Model Key : Type}.
Variable key_dec : forall a b : Key, {a = b} + {a <> b}.
Variable row_key : Row -> Key.
Variable model_key : Model -> Key.
Variable insert_row : Z -> Model -> Row.
Variable update_row : Row -> Model -> Row.

Definition key_in (k : Key) (ks : list Key) : bool :=
  existsb (fun k' => if key_dec k' k then true else false) ks.

Definition has_key (k : Key) (r : Row) : bool :=
  if key_dec (row_key r) k then true else false.

Fixpoint upsert (seq : Z) (affected : list Key) (rows : list Row)
    (models : list Model) : Z * option (list Row) :=
  match models with
  | [] => (seq, Some rows)
  | m :: rest =>
      let k := model_key m in
      if key_in k affected then (seq + 1, None)
      else if existsb (has_key k) rows
      then upsert (seq + 1) (k :: affected)
             (map (fun r => if has_key k r then update_row r m else r) rows) rest
      else upsert (seq + 1) (k :: affected) (rows ++ [insert_row seq m]) rest
  end.

(** The rows a statement inserts when none of its keys is present. *)
Fixpoint fresh_rows (seq : Z) (models : list Model) : list Row :=
  match models with
  | [] => []
  | m :: rest => insert_row seq m :: fresh_rows (seq + 1) rest
  end.
End Upsert.

(** ** Dispatched messages: the batch upsert *)

Definition message_key (r : message_row) : bytes * Z * Z :=
  (m_origin_mailbox r, m_origin r, m_nonce r).

Definition message_model_key (a : message_model) : bytes * Z * Z :=
  (a_origin_mailbox a, a_origin a, a_nonce a).

Definition message_key_dec (a b : bytes * Z * Z) : {a = b} + {a <> b}.
Proof.
  decide equality; [apply Z.eq_dec |].
  decide equality; [apply Z.eq_dec | apply (list_eq_dec byte_eq_dec)].
Defined.

Definition insert_message_row (id : Z) (a : message_model) : message_row :=
  {| m_id := id;
     m_time_created := a_time_created a;
     m_msg_id := a_msg_id a;
     m_origin := a_origin a;
     m_destination := a_destination a;
     m_nonce := a_nonce a;
     m_sender := a_sender a;
     m_recipient := a_recipient a;
     m_msg_body := a_msg_body a;
     m_origin_mailbox := a_origin_mailbox a;
     m_origin_tx_id := a_origin_tx_id a |}.

(** [update_columns([TimeCreated, Destination, Sender, Recipient, MsgBody,
    OriginTxId])]: the other columns keep the stored values. *)
Definition update_message_row (r : message_row) (a : message_model) : message_row :=
  {| m_id := m_id r;
     m_time_created := a_time_created a;
     m_msg_id := m_msg_id r;
     m_origin := m_origin r;
     m_destination := a_destination a;
     m_nonce := m_nonce r;
     m_sender := a_sender a;
     m_recipient := a_recipient a;
     m_msg_body := a_msg_body a;
     m_origin_mailbox := m_origin_mailbox r;
     m_origin_tx_id := a_origin_tx_id a |}.

Definition is_empty {A} (l : list A) : bool :=
  match l with [] => true | _ => false end.

(** [.map(..).collect_vec()] over the batch, where each entry reads the
    clock once: [now i] is the value of the [i]-th call of
    [date_time::now()] made while the models are built. *)
Fixpoint map_clock {A B} (f : Z -> A -> B) (now : nat -> Z) (l : list A) : list B :=
  match l with
  | [] => []
  | x :: t => f (now O) x :: map_clock f (fun i => now (S i)) t
  end.

Definition upsert_messages (seq : Z) (rows : list message_row)
    (models : list message_model) : Z * option (list message_row) :=
  upsert message_key_dec message_key message_model_key insert_message_row
    update_message_row seq [] rows models.

(** [Insert::many(models) .. .exec()]: an insert of no model at all is a
    statement the store refuses, with a database error. *)
Definition insert_many_messages (models : list message_model) : M unit := fun d =>
  if db_up d then
    if is_empty models then (d, Err QueryError) else
    match upsert_messages (message_seq d) (messages d) models with
    | (seq', Some rows) =>
        ({| messages := rows; message_seq := seq';
            delivered_messages := delivered_messages d;
            delivered_seq := delivered_seq d; db_up := db_up d |}, Ok tt)
    | (seq', None) =>
        ({| messages := messages d; message_seq := seq';
            delivered_messages := delivered_messages d;
            delivered_seq := delivered_seq d; db_up := db_up d |},
         Err CardinalityViolation)
    end
  else (d, Err QueryError).


Section WithMessageId.
Context `{MessageId}.

(** The [message::ActiveModel] of one [StorableMessage]; [now] is the
    value [date_time::now()] returned for this entry. *)
Definition message_active_model (now : Z) (origin_mailbox : bytes)
    (storable : StorableMessage) : message_model :=
  {| a_time_created := now;
     a_msg_id := h256_to_bytes (message_id (msg storable));
     a_origin := u32_as_i32 (origin (msg storable));
     a_destination := u32_as_i32 (destination (msg storable));
     a_nonce := u32_as_i32 (nonce (msg storable));
     a_sender := address_to_bytes (sender (msg storable));
     a_recipient := address_to_bytes (recipient (msg storable));
     a_msg_body := if is_empty (body (msg storable)) then None
                   else Some (body (msg storable));
     a_origin_mailbox := origin_mailbox;
     a_origin_tx_id := txn_id storable |}.

Definition store_dispatched_messages (mode : build) (now : nat -> Z) (domain : Z)
    (origin_mailbox : H256) (msgs : list StorableMessage) : M Z :=
  let origin_mailbox := address_to_bytes origin_mailbox in
  latest_id_before <- latest_dispatched_id domain origin_mailbox ;;
  let models := map_clock (fun t => message_active_model t origin_mailbox) now msgs in
  debug_assert mode (negb (is_empty models)) ;;
  insert_many_messages models ;;
  new_dispatch_count <- dispatch_count_since_id domain origin_mailbox latest_id_before ;;
  ret new_dispatch_count.
End WithMessageId.

(** ** Deliveries *)

Definition delivery_filter (domain : Z) (destination_mailbox : bytes)
    (r : delivered_row) : bool :=
  (d_domain r =? domain) && bytes_eqb (d_destination_mailbox r) destination_mailbox.

Definition latest_deliveries_id (domain : Z) (destination_mailbox : bytes) : M Z :=
  result <- query (fun d =>
              Some (sql_max (map d_id
                (filter (delivery_filter domain destination_mailbox)
                   (delivered_messages d))))) ;;
  match result with
  | None => throw (Report "Error getting latest delivery id"%string)
  | Some inner => ret (unwrap_or inner 0)
  end.

Definition deliveries_count_since_id (domain : Z) (destination_mailbox : bytes)
    (prev_id : Z) : M Z :=
  query (fun d =>
    Z.of_nat (length (filter (fun r => delivery_filter domain destination_mailbox r
                                       && (prev_id <? d_id r))
                        (delivered_messages d)))).

Definition insert_delivered_row (id : Z) (a : delivered_model) : delivered_row :=
  {| d_id := id;
     d_time_created := da_time_created a;
     d_msg_id := da_msg_id a;
     d_domain := da_domain a;
     d_destination_mailbox := da_destination_mailbox a;
     d_destination_tx_id := da_destination_tx_id a |}.

(** [update_columns([TimeCreated, DestinationTxId])]. *)
Definition update_delivered_row (r : delivered_row) (a : delivered_model) : delivered_row :=
  {| d_id := d_id r;
     d_time_created := da_time_created a;
     d_msg_id := d_msg_id r;
     d_domain := d_domain r;
     d_destination_mailbox := d_destination_mailbox r;
     d_destination_tx_id := da_destination_tx_id a |}.

(** [OnConflict::columns([MsgId])]. *)
Definition upsert_deliveries (seq : Z) (rows : list delivered_row)
    (models : list delivered_model) : Z * option (list delivered_row) :=
  upsert (list_eq_dec byte_eq_dec) d_msg_id da_msg_id insert_delivered_row
    update_delivered_row seq [] rows models.

Definition insert_many_deliveries (models : list delivered_model) : M unit := fun d =>
  if db_up d then
    if is_empty models then (d, Err QueryError) else
    match upsert_deliveries (delivered_seq d) (delivered_messages d) models with
    | (seq', Some rows) =>
        ({| messages := messages d; message_seq := message_seq d;
            delivered_messages := rows; delivered_seq := seq';
            db_up := db_up d |}, Ok tt)
    | (seq', None) =>
        ({| messages := messages d; message_seq := message_seq d;
            delivered_messages := delivered_messages d; delivered_seq := seq';
            db_up := db_up d |}, Err CardinalityViolation)
    end
  else (d, Err QueryError).

(** The [delivered_message::ActiveModel] of one [StorableDelivery]; [now]
    is the value [date_time::now()] returned for this entry. *)
Definition delivered_active_model (now : Z) (domain : Z) (destination_mailbox : bytes)
    (delivery : StorableDelivery) : delivered_model :=
  {| da_time_created := now;
     da_msg_id := h256_to_bytes (delivery_message_id delivery);
     da_domain := u32_as_i32 domain;
     da_destination_mailbox := destination_mailbox;
     da_destination_tx_id := delivery_txn_id delivery |}.

Definition store_deliveries (mode : build) (now : nat -> Z) (domain : Z)
    (destination_mailbox : H256) (deliveries : list StorableDelivery) : M Z :=
  let destination_mailbox := address_to_bytes destination_mailbox in
  latest_id_before <- latest_deliveries_id domain destination_mailbox ;;
  let models := map_clock (fun t => delivered_active_model t domain destination_mailbox) now
                  deliveries in
  debug_assert mode (negb (is_empty models)) ;;
  insert_many_deliveries models ;;
  new_deliveries_count <- deliveries_count_since_id domain destination_mailbox latest_id_before ;;
  ret new_deliveries_count.

(** ** Spec-side readings used by the statements *)

(** A direct unique point lookup of the transaction id of a dispatched
    message (the comparison point of [retrieve_dispatched_tx_id]). *)
Definition dispatched_tx_id_point_lookup (origin_domain : Z) (origin_mailbox : H256)
    (nonce : Z) : M (option Z) :=
  query (fun d =>
    option_map m_origin_tx_id
      (find (message_nonce_filter origin_domain (address_to_bytes origin_mailbox) nonce)
         (messages d))).

(** Well-formed store: ids below their sequence, sequences start at 1,
    natural keys unique. *)
Definition db_wf (d : db) : Prop :=
  1 <= message_seq d /\ 1 <= delivered_seq d /\
  Forall (fun r => m_id r < message_seq d) (messages d) /\
  Forall (fun r => d_id r < delivered_seq d) (delivered_messages d) /\
  NoDup (map message_key (messages d)) /\
  NoDup (map d_msg_id (delivered_messages d)).

Definition valid_message (m : HyperlaneMessage) : Prop :=
  is_u32 (nonce m) = true /\ is_u32 (origin m) = true /\
  is_u32 (destination m) = true /\
  length (sender m) = 32%nat /\ length (recipient m) = 32%nat.

Definition empty_db : db :=
  {| messages := []; message_seq := 1; delivered_messages := [];
     delivered_seq := 1; db_up := true |}.

(** ** Sample inputs *)

(** A stand-in for the content hash: the first 32 bytes of the body,
    zero-padded.  Only used to run the operations on concrete batches. *)
Definition sample_message_id : MessageId :=
  fun m => firstn 32 (body m ++ repeat x00 32).

Definition sample_mailbox : H256 := repeat x00 31 ++ [x07].

Definition sample_address : H256 := repeat x00 31 ++ [x09].

Definition sample_message (origin_domain n : Z) (b : bytes) : HyperlaneMessage :=
  {| version := 3; nonce := n; origin := origin_domain; sender := sample_address;
     destination := 2; recipient := sample_address; body := b |}.

Definition sample_storable (origin_domain n tx : Z) : StorableMessage :=
  {| msg := sample_message origin_domain n []; txn_id := tx |}.

(** A clock starting at [t] and advancing by one at each reading. *)
Definition sample_clock (t : Z) : nat -> Z := fun i => t + Z.of_nat i.

Definition sample_delivery (id_byte : byte) (tx : Z) : StorableDelivery :=
  {| delivery_message_id := repeat x00 31 ++ [id_byte]; delivery_txn_id := tx |}.

(** The store after a write of the message (resp. delivery) table. *)
Definition set_messages (d : db) (rows : list message_row) (seq : Z) : db :=
  {| messages := rows; message_seq := seq;
     delivered_messages := delivered_messages d;
     delivered_seq := delivered_seq d; db_up := db_up d |}.

Definition set_deliveries (d : db) (rows : list delivered_row) (seq : Z) : db :=
  {| messages := messages d; message_seq := message_seq d;
     delivered_messages := rows; delivered_seq := seq; db_up := db_up d |}.

(** * Facts *)

(** ** Building the models *)

Section MapClock.
Context {A B : Type}.
Variable f : Z -> A -> B.

Lemma map_clock_length now l : length (map_clock f now l) = length l.
Proof. revert now. induction l as [|x l IH]; intros now; simpl; [reflexivity | rewrite IH; reflexivity]. Qed.

Lemma map_clock_is_empty now l : is_empty (map_clock f now l) = is_empty l.
Proof. destruct l; reflexivity. Qed.

Lemma map_clock_nil now l : map_clock f now l = [] <-> l = [].
Proof. destruct l; simpl; split; congruence. Qed.

Lemma map_map_clock {C} (g : B -> C) (h : A -> C) now l :
  (forall t x, g (f t x) = h x) -> map g (map_clock f now l) = map h l.
Proof.
  intros Hgh. revert now. induction l as [|x l IH]; intros now; simpl; [reflexivity|].
  rewrite Hgh, IH. reflexivity.
Qed.

Lemma length_filter_map_clock (p : B -> bool) (q : A -> bool) now l :
  (forall t x, p (f t x) = q x) -> length (filter p (map_clock f now l)) = length (filter q l).
Proof.
  intros Hpq. revert now. induction l as [|x l IH]; intros now; simpl; [reflexivity|].
  rewrite Hpq. destruct (q x); simpl; rewrite IH; reflexivity.
Qed.

Lemma map_clock_nth now l j x :
  nth_error l j = Some x -> In (f (now j) x) (map_clock f now l).
Proof.
  revert now j. induction l as [|y l IH]; intros now j Hj; [destruct j; discriminate|].
  destruct j as [|j]; simpl in Hj |- *.
  - injection Hj as ->. left. reflexivity.
  - right. exact (IH (fun i => now (S i)) j Hj).
Qed.

Lemma map_clock_in now l x :
  In x l -> exists j, nth_error l j = Some x /\ In (f (now j) x) (map_clock f now l).
Proof.
  intros Hx. apply In_nth_error in Hx. destruct Hx as [j Hj].
  exists j. split; [exact Hj | apply map_clock_nth; exact Hj].
Qed.

Lemma in_map_clock now l a :
  In a (map_clock f now l) -> exists j x, nth_error l j = Some x /\ a = f (now j) x.
Proof.
  revert now. induction l as [|y l IH]; intros now Ha; [destruct Ha|].
  destruct Ha as [<-|Ha].
  - exists O, y. split; reflexivity.
  - destruct (IH (fun i => now (S i)) Ha) as [j [x [Hj Ea]]].
    exists (S j), x. split; [exact Hj | exact Ea].
Qed.
End MapClock.

(** ** SQL maximum *)

Lemma sql_max_none (l : list Z) : sql_max l = None <-> l = [].
Proof.
  destruct l as [|x t]; simpl; [tauto|].
  destruct (sql_max t); split; congruence.
Qed.

Lemma sql_max_spec (l : list Z) (m : Z) :
  sql_max l = Some m <-> In m l /\ Forall (fun x => x <= m) l.
Proof.
  revert m; induction l as [|x t IH]; intros m; simpl.
  - split; [discriminate | intros [[] _]].
  - destruct (sql_max t) as [m'|] eqn:E.
    + specialize (IH m'). destruct (proj1 IH eq_refl) as [Hin Hall].
      split.
      * intros Hm; injection Hm as <-. split.
        -- destruct (Z.max_spec x m') as [[_ ->]|[_ ->]]; auto.
        -- constructor; [lia|]. eapply Forall_impl; [|exact Hall]. simpl; lia.
      * intros [Hin' Hall']. inversion Hall' as [|? ? Hx Ht]; subst.
        f_equal. rewrite Forall_forall in Ht, Hall. specialize (Ht _ Hin).
        destruct Hin' as [<-|Hin'].
        -- lia.
        -- specialize (Hall _ Hin'). lia.
    + apply sql_max_none in E; subst. split.
      * intros Hm; injection Hm as <-. split; [left; reflexivity|].
        constructor; [lia | constructor].
      * intros [[<-|[]] _]; reflexivity.
Qed.

Lemma sql_max_upper (l : list Z) (x : Z) :
  In x l -> exists m, sql_max l = Some m /\ x <= m.
Proof.
  intros Hx. destruct (sql_max l) as [m|] eqn:E.
  - exists m; split; [reflexivity|]. apply sql_max_spec in E.
    destruct E as [_ E]. rewrite Forall_forall in E. auto.
  - apply sql_max_none in E; subst; destruct Hx.
Qed.

(** ** The upsert statement *)

Section UpsertFacts.
Context {Row Model Key : Type}.
Variable key_dec : forall a b : Key, {a = b} + {a <> b}.
Variable row_key : Row -> Key.
Variable model_key : Model -> Key.
Variable insert_row : Z -> Model -> Row.
Variable update_row : Row -> Model -> Row.
Hypothesis row_key_insert : forall i m, row_key (insert_row i m) = model_key m.
Hypothesis row_key_update : forall r m, row_key (update_row r m) = row_key r.

Let ups := upsert key_dec row_key model_key insert_row update_row.
Let hk := has_key key_dec row_key.

Lemma key_in_spec k ks : key_in key_dec k ks = true <-> In k ks.
Proof.
  unfold key_in. rewrite existsb_exists. split.
  - intros [k' [Hin Hk]]. destruct (key_dec k' k); [subst; auto | discriminate].
  - intros Hin. exists k. split; [auto|]. destruct (key_dec k k); congruence.
Qed.

Lemma has_key_spec k r : hk k r = true <-> row_key r = k.
Proof.
  unfold hk, has_key. destruct (key_dec (row_key r) k); split; congruence.
Qed.

Lemma has_key_false k r : hk k r = false <-> row_key r <> k.
Proof.
  unfold hk, has_key. destruct (key_dec (row_key r) k); split; congruence.
Qed.

Lemma filter_update_other k k0 m rows :
  k <> k0 ->
  filter (hk k) (map (fun r => if hk k0 r then update_row r m else r) rows)
  = filter (hk k) rows.
Proof.
  intros Hne. induction rows as [|r rows IH]; simpl; [reflexivity|].
  destruct (hk k0 r) eqn:E0.
  - apply has_key_spec in E0.
    assert (hk k (update_row r m) = false) as ->
      by (apply has_key_false; rewrite row_key_update; congruence).
    assert (hk k r = false) as -> by (apply has_key_false; congruence).
    exact IH.
  - destruct (hk k r); [f_equal|]; exact IH.
Qed.

Lemma filter_update_same k m rows :
  filter (hk k) (map (fun r => if hk k r then update_row r m else r) rows)
  = map (fun r => update_row r m) (filter (hk k) rows).
Proof.
  induction rows as [|r rows IH]; simpl; [reflexivity|].
  destruct (hk k r) eqn:E.
  - apply has_key_spec in E.
    assert (hk k (update_row r m) = true) as ->
      by (apply has_key_spec; rewrite row_key_update; exact E).
    simpl; f_equal; exact IH.
  - rewrite E; exact IH.
Qed.

Lemma filter_insert_other k seq m rows :
  k <> model_key m ->
  filter (hk k) (rows ++ [insert_row seq m]) = filter (hk k) rows.
Proof.
  intros Hne. rewrite filter_app. simpl.
  assert (hk k (insert_row seq m) = false) as ->
    by (apply has_key_false; rewrite row_key_insert; congruence).
  apply app_nil_r.
Qed.

Lemma existsb_hk k rows : existsb (hk k) rows = false -> filter (hk k) rows = [].
Proof.
  induction rows as [|r rows IH]; simpl; [reflexivity|].
  destruct (hk k r); [discriminate | exact IH].
Qed.

Lemma existsb_hk_true k rows : existsb (hk k) rows = true -> filter (hk k) rows <> [].
Proof.
  induction rows as [|r rows IH]; simpl; [discriminate|].
  destruct (hk k r); [discriminate | exact IH].
Qed.
Lemma map_proj_update {X} (proj : Row -> X) k m rows :
  (forall r m', proj (update_row r m') = proj r) ->
  map proj (map (fun r => if hk k r then update_row r m else r) rows) = map proj rows.
Proof.
  intros Hp. rewrite map_map. apply map_ext. intros r.
  destruct (hk k r); [apply Hp | reflexivity].
Qed.

Lemma upsert_ok_inv seq aff rows models s' rows' :
  ups seq aff rows models = (s', Some rows') ->
  NoDup (map model_key models) /\ Forall (fun m => ~ In (model_key m) aff) models.
Proof.
  revert seq aff rows. induction models as [|m rest IH]; intros seq aff rows H.
  - split; constructor.
  - simpl in H. fold hk in H. fold ups in H.
    destruct (key_in key_dec (model_key m) aff) eqn:Ea; [discriminate|].
    assert (~ In (model_key m) aff) as Hm
      by (rewrite <- key_in_spec; congruence).
    destruct (existsb (hk (model_key m)) rows);
      apply IH in H; destruct H as [Hnd Hall];
      (split; [constructor; [|exact Hnd] | constructor; [exact Hm|]]);
      try (eapply Forall_impl; [|exact Hall]; simpl; intros a Ha Hin; apply Ha; right; exact Hin);
      intros Hin; apply in_map_iff in Hin; destruct Hin as [m' [Hk Hin]];
      rewrite Forall_forall in Hall; apply (Hall m' Hin); left; symmetry; exact Hk.
Qed.

Lemma upsert_ok_key seq aff rows models s' rows' :
  ups seq aff rows models = (s', Some rows') ->
  forall k,
    (~ In k (map model_key models) -> filter (hk k) rows' = filter (hk k) rows) /\
    (forall m, In m models -> model_key m = k -> filter (hk k) rows <> [] ->
       filter (hk k) rows' = map (fun r => update_row r m) (filter (hk k) rows)) /\
    (forall m, In m models -> model_key m = k -> filter (hk k) rows = [] ->
       exists i, seq <= i /\ filter (hk k) rows' = [insert_row i m]).
Proof.
  revert seq aff rows. induction models as [|m rest IH]; intros seq aff rows H k.
  - simpl in H. injection H as _ <-. split; [auto|]. split; intros ? [].
  - pose proof H as Hinv. apply upsert_ok_inv in Hinv. destruct Hinv as [Hnd _].
    simpl in Hnd. apply NoDup_cons_iff in Hnd. destruct Hnd as [Hnotin _].
    simpl in H. fold hk in H. fold ups in H.
    destruct (key_in key_dec (model_key m) aff) eqn:Ea; [discriminate|].
    destruct (existsb (hk (model_key m)) rows) eqn:Ex.
    + specialize (IH _ _ _ H k). destruct IH as [IH1 [IH2 IH3]].
      destruct (key_dec k (model_key m)) as [->|Hne].
      * split; [intros Hn; exfalso; apply Hn; left; reflexivity|].
        rewrite (IH1 Hnotin), filter_update_same. split.
        -- intros m' [<-|Hin'] Hk _; [reflexivity|].
           exfalso; apply Hnotin; rewrite <- Hk; apply in_map; exact Hin'.
        -- intros m' _ _ Hnil. exfalso. exact (existsb_hk_true _ _ Ex Hnil).
      * rewrite !(filter_update_other k (model_key m) m rows Hne) in IH1, IH2, IH3.
        split; [intros Hn; apply IH1; intros Hin; apply Hn; right; exact Hin|].
        split.
        -- intros m' [<-|Hin'] Hk; [exfalso; congruence|]. apply IH2; auto.
        -- intros m' [<-|Hin'] Hk; [exfalso; congruence|].
           intros Hnil. destruct (IH3 m' Hin' Hk Hnil) as [i [Hi Hf]].
           exists i; split; [lia | exact Hf].
    + specialize (IH _ _ _ H k). destruct IH as [IH1 [IH2 IH3]].
      destruct (key_dec k (model_key m)) as [->|Hne].
      * split; [intros Hn; exfalso; apply Hn; left; reflexivity|].
        rewrite (IH1 Hnotin), filter_app, (existsb_hk _ _ Ex). simpl.
        assert (hk (model_key m) (insert_row seq m) = true) as ->
          by (apply has_key_spec; apply row_key_insert).
        split.
        -- intros m' _ _ Hnil; exfalso; apply Hnil; reflexivity.
        -- intros m' [<-|Hin'] Hk _.
           ++ exists seq; split; [lia | reflexivity].
           ++ exfalso; apply Hnotin; apply in_map_iff; eauto.
      * rewrite !(filter_insert_other k seq m rows Hne) in IH1, IH2, IH3.
        split; [intros Hn; apply IH1; intros Hin; apply Hn; right; exact Hin|].
        split.
        -- intros m' [<-|Hin'] Hk; [exfalso; congruence|]. apply IH2; auto.
        -- intros m' [<-|Hin'] Hk; [exfalso; congruence|].
           intros Hnil. destruct (IH3 m' Hin' Hk Hnil) as [i [Hi Hf]].
           exists i; split; [lia | exact Hf].
Qed.

Lemma existsb_hk_notin k rows :
  ~ In k (map row_key rows) -> existsb (hk k) rows = false.
Proof.
  intros Hn. induction rows as [|r rows IH]; simpl; [reflexivity|].
  destruct (hk k r) eqn:E.
  - apply has_key_spec in E. exfalso; apply Hn; left; exact E.
  - apply IH. intros Hin; apply Hn; right; exact Hin.
Qed.

Lemma existsb_hk_in k rows :
  In k (map row_key rows) -> existsb (hk k) rows = true.
Proof.
  intros Hin. apply existsb_exists. apply in_map_iff in Hin.
  destruct Hin as [r [Hk Hr]]. exists r. split; [exact Hr|].
  apply has_key_spec; exact Hk.
Qed.

Lemma upsert_fresh seq aff rows models :
  NoDup (map model_key models) ->
  Forall (fun m => ~ In (model_key m) aff /\ ~ In (model_key m) (map row_key rows)) models ->
  ups seq aff rows models
  = (seq + Z.of_nat (length models), Some (rows ++ fresh_rows insert_row seq models)).
Proof.
  revert seq aff rows. induction models as [|m rest IH]; intros seq aff rows Hnd Hall.
  - simpl. rewrite Z.add_0_r, app_nil_r. reflexivity.
  - simpl in Hnd |- *. fold hk; fold ups.
    apply NoDup_cons_iff in Hnd. destruct Hnd as [Hnotin Hnd].
    inversion Hall as [|? ? [Ha Hr] Hall']; subst.
    assert (key_in key_dec (model_key m) aff = false) as ->
      by (destruct (key_in key_dec (model_key m) aff) eqn:E; [|reflexivity];
          apply key_in_spec in E; contradiction).
    rewrite (existsb_hk_notin _ _ Hr).
    rewrite IH; [|exact Hnd|].
    + f_equal; [lia|]. rewrite <- app_assoc. reflexivity.
    + rewrite Forall_forall in Hall' |- *. intros m' Hm'.
      destruct (Hall' m' Hm') as [Ha' Hr'].
      assert (model_key m' <> model_key m) as Hne
        by (intros He; apply Hnotin; rewrite <- He; apply in_map; exact Hm').
      split.
      * intros [He|Hin]; [congruence | contradiction].
      * rewrite map_app. simpl. rewrite row_key_insert.
        intros Hin. apply in_app_or in Hin. destruct Hin as [Hin|[He|[]]];
          [contradiction | congruence].
Qed.

Lemma upsert_present seq aff rows models :
  NoDup (map model_key models) ->
  Forall (fun m => ~ In (model_key m) aff /\ In (model_key m) (map row_key rows)) models ->
  exists s' rows', ups seq aff rows models = (s', Some rows') /\
    forall (X : Type) (proj : Row -> X),
      (forall r m, proj (update_row r m) = proj r) -> map proj rows' = map proj rows.
Proof.
  revert seq aff rows. induction models as [|m rest IH]; intros seq aff rows Hnd Hall.
  - exists seq, rows. split; [reflexivity | auto].
  - simpl in Hnd |- *. fold hk; fold ups.
    apply NoDup_cons_iff in Hnd. destruct Hnd as [Hnotin Hnd].
    inversion Hall as [|? ? [Ha Hr] Hall']; subst.
    assert (key_in key_dec (model_key m) aff = false) as ->
      by (destruct (key_in key_dec (model_key m) aff) eqn:E; [|reflexivity];
          apply key_in_spec in E; contradiction).
    rewrite (existsb_hk_in _ _ Hr).
    set (rows1 := map (fun r => if hk (model_key m) r then update_row r m else r) rows).
    assert (map row_key rows1 = map row_key rows) as Hk1
      by (apply map_proj_update; exact row_key_update).
    destruct (IH (seq + 1) (model_key m :: aff) rows1) as [s' [rows' [Heq Hp]]].
    + exact Hnd.
    + rewrite Forall_forall in Hall' |- *. intros m' Hm'.
      destruct (Hall' m' Hm') as [Ha' Hr']. rewrite Hk1. split; [|exact Hr'].
      intros [He|Hin]; [|contradiction].
      apply Hnotin; rewrite He; apply in_map; exact Hm'.
    + exists s', rows'. split; [exact Heq|].
      intros X proj Hproj. rewrite (Hp X proj Hproj). apply map_proj_update; exact Hproj.
Qed.
End UpsertFacts.

(** ** The store operations, step by step *)

Lemma store_dispatched_messages_eq `{MessageId} mode now domain mb msgs d :
  store_dispatched_messages mode now domain mb msgs d =
  if db_up d then
    let mbb := address_to_bytes mb in
    let b := unwrap_or (sql_max (map m_id (filter (message_filter domain mbb) (messages d)))) 0 in
    let models := map_clock (fun t => message_active_model t mbb) now msgs in
    match mode, is_empty models with
    | Debug, true => (d, Panic)
    | Release, true => (d, Err QueryError)
    | _, false =>
      match upsert_messages (message_seq d) (messages d) models with
      | (seq', Some rows) =>
          (set_messages d rows seq',
           Ok (Z.of_nat (length (filter (fun r => message_filter domain mbb r && (b <? m_id r)) rows))))
      | (seq', None) => (set_messages d (messages d) seq', Err CardinalityViolation)
      end
    end
  else (d, Err QueryError).
Proof.
  unfold store_dispatched_messages, latest_dispatched_id, dispatch_count_since_id,
    insert_many_messages, debug_assert, bind, query, ret, set_messages.
  destruct (db_up d) eqn:Eup; [|reflexivity]. cbn zeta.
  destruct mode, (is_empty (map_clock (fun t => message_active_model t (address_to_bytes mb)) now msgs)); simpl;
    destruct (upsert_messages (message_seq d) (messages d) (map_clock (fun t => message_active_model t (address_to_bytes mb)) now msgs)) as [seq' [rows|]]; simpl; rewrite ?Eup; reflexivity.
Qed.

Lemma store_deliveries_eq mode now domain mb dels d :
  store_deliveries mode now domain mb dels d =
  if db_up d then
    let mbb := address_to_bytes mb in
    let b := unwrap_or (sql_max (map d_id (filter (delivery_filter domain mbb)
                                             (delivered_messages d)))) 0 in
    let models := map_clock (fun t => delivered_active_model t domain mbb) now dels in
    match mode, is_empty models with
    | Debug, true => (d, Panic)
    | Release, true => (d, Err QueryError)
    | _, false =>
      match upsert_deliveries (delivered_seq d) (delivered_messages d) models with
      | (seq', Some rows) =>
          (set_deliveries d rows seq',
           Ok (Z.of_nat (length (filter (fun r => delivery_filter domain mbb r && (b <? d_id r)) rows))))
      | (seq', None) => (set_deliveries d (delivered_messages d) seq', Err CardinalityViolation)
      end
    end
  else (d, Err QueryError).
Proof.
  unfold store_deliveries, latest_deliveries_id, deliveries_count_since_id,
    insert_many_deliveries, debug_assert, bind, query, ret, set_deliveries.
  destruct (db_up d) eqn:Eup; [|reflexivity]. cbn zeta.
  destruct mode, (is_empty (map_clock (fun t => delivered_active_model t domain (address_to_bytes mb)) now dels)); simpl;
    destruct (upsert_deliveries (delivered_seq d) (delivered_messages d) (map_clock (fun t => delivered_active_model t domain (address_to_bytes mb)) now dels)) as [seq' [rows|]]; simpl; rewrite ?Eup; reflexivity.
Qed.

Lemma store_dispatched_messages_nonempty `{MessageId} mode now domain mb msgs d :
  db_up d = true -> msgs <> [] ->
  store_dispatched_messages mode now domain mb msgs d =
    let mbb := address_to_bytes mb in
    let b := unwrap_or (sql_max (map m_id (filter (message_filter domain mbb) (messages d)))) 0 in
    match upsert_messages (message_seq d) (messages d) (map_clock (fun t => message_active_model t mbb) now msgs) with
    | (seq', Some rows) =>
        (set_messages d rows seq',
         Ok (Z.of_nat (length (filter (fun r => message_filter domain mbb r && (b <? m_id r)) rows))))
    | (seq', None) => (set_messages d (messages d) seq', Err CardinalityViolation)
    end.
Proof.
  intros Eup Hne. rewrite store_dispatched_messages_eq, Eup. cbv zeta.
  destruct msgs as [|s msgs]; [contradiction|]. simpl is_empty.
  destruct mode; reflexivity.
Qed.

Lemma store_deliveries_nonempty mode now domain mb dels d :
  db_up d = true -> dels <> [] ->
  store_deliveries mode now domain mb dels d =
    let mbb := address_to_bytes mb in
    let b := unwrap_or (sql_max (map d_id (filter (delivery_filter domain mbb)
                                             (delivered_messages d)))) 0 in
    match upsert_deliveries (delivered_seq d) (delivered_messages d)
            (map_clock (fun t => delivered_active_model t domain mbb) now dels) with
    | (seq', Some rows) =>
        (set_deliveries d rows seq',
         Ok (Z.of_nat (length (filter (fun r => delivery_filter domain mbb r && (b <? d_id r)) rows))))
    | (seq', None) => (set_deliveries d (delivered_messages d) seq', Err CardinalityViolation)
    end.
Proof.
  intros Eup Hne. rewrite store_deliveries_eq, Eup. cbv zeta.
  destruct dels as [|s dels]; [contradiction|]. simpl is_empty.
  destruct mode; reflexivity.
Qed.

(** ** Counting above the watermark *)

Lemma filter_none {A} (p : A -> bool) (l : list A) :
  (forall x, In x l -> p x = false) -> filter p l = [].
Proof.
  induction l as [|x l IH]; intros Hp; simpl; [reflexivity|].
  rewrite (Hp x (or_introl eq_refl)). apply IH. intros y Hy. apply Hp. right; exact Hy.
Qed.

Lemma filter_all {A} (p : A -> bool) (l : list A) :
  (forall x, In x l -> p x = true) -> filter p l = l.
Proof.
  induction l as [|x l IH]; intros Hp; simpl; [reflexivity|].
  rewrite (Hp x (or_introl eq_refl)). f_equal. apply IH. intros y Hy. apply Hp. right; exact Hy.
Qed.

Lemma count_above_max {R} (f : R -> bool) (id : R -> Z) (rows : list R) :
  filter (fun r => f r && (unwrap_or (sql_max (map id (filter f rows))) 0 <? id r)) rows = [].
Proof.
  apply filter_none. intros r Hr. destruct (f r) eqn:Ef; [|reflexivity]. simpl.
  destruct (sql_max_upper (map id (filter f rows)) (id r)) as [m [Hm Hle]].
  - apply in_map. apply filter_In. split; assumption.
  - rewrite Hm. simpl. apply Z.ltb_ge. exact Hle.
Qed.

Lemma count_fresh {R} (f : R -> bool) (id : R -> Z) (rows fresh : list R) (seq : Z) :
  Forall (fun r => id r < seq) rows -> 1 <= seq ->
  Forall (fun r => f r = true /\ seq <= id r) fresh ->
  length (filter (fun r => f r && (unwrap_or (sql_max (map id (filter f rows))) 0 <? id r))
            (rows ++ fresh)) = length fresh.
Proof.
  intros Hrows Hseq Hfresh. rewrite filter_app, count_above_max. simpl.
  assert (unwrap_or (sql_max (map id (filter f rows))) 0 < seq) as Hb.
  { destruct (sql_max (map id (filter f rows))) as [m|] eqn:E; simpl; [|lia].
    apply sql_max_spec in E. destruct E as [Hin _].
    apply in_map_iff in Hin. destruct Hin as [r [<- Hr]].
    apply filter_In in Hr. rewrite Forall_forall in Hrows. apply Hrows. apply Hr. }
  rewrite filter_all; [reflexivity|]. intros r Hr. rewrite Forall_forall in Hfresh.
  destruct (Hfresh r Hr) as [-> Hi]. simpl. apply Z.ltb_lt. lia.
Qed.

Lemma count_proj {A B} (proj : A -> B) (g : B -> bool) (l1 l2 : list A) :
  map proj l1 = map proj l2 ->
  length (filter (fun x => g (proj x)) l1) = length (filter (fun x => g (proj x)) l2).
Proof.
  revert l2; induction l1 as [|x l1 IH]; intros [|y l2] Hm; simpl in Hm;
    try discriminate; [reflexivity|].
  injection Hm as Hxy Hm. simpl. rewrite Hxy. destruct (g (proj y)); simpl; rewrite (IH l2 Hm); reflexivity.
Qed.

Lemma in_fresh_rows {Row Model} (ins : Z -> Model -> Row) seq models r :
  In r (fresh_rows ins seq models) ->
  exists i a, seq <= i /\ In a models /\ r = ins i a.
Proof.
  revert seq; induction models as [|a models IH]; intros seq Hr; simpl in Hr; [destruct Hr|].
  destruct Hr as [<-|Hr].
  - exists seq, a. split; [lia|]. split; [left; reflexivity | reflexivity].
  - destruct (IH _ Hr) as [i [a' [Hi [Ha ->]]]].
    exists i, a'. split; [lia|]. split; [right; exact Ha | reflexivity].
Qed.

Lemma length_fresh_rows {Row Model} (ins : Z -> Model -> Row) seq models :
  length (fresh_rows ins seq models) = length models.
Proof.
  revert seq; induction models as [|a models IH]; intros seq; simpl; [reflexivity|].
  rewrite IH; reflexivity.
Qed.

Lemma map_key_fresh_rows {Row Model Key} (ins : Z -> Model -> Row)
    (row_key : Row -> Key) (model_key : Model -> Key) seq models :
  (forall i a, row_key (ins i a) = model_key a) ->
  map row_key (fresh_rows ins seq models) = map model_key models.
Proof.
  intros Hk. revert seq; induction models as [|a models IH]; intros seq; simpl; [reflexivity|].
  rewrite Hk, IH; reflexivity.
Qed.

(** ** Casts *)

Lemma u32_as_i32_small x : 0 <= x < 2 ^ 31 -> u32_as_i32 x = x.
Proof.
  intros Hx. unfold u32_as_i32. destruct (Z.ltb_spec x (2 ^ 31)); lia.
Qed.

Lemma u32_as_i32_inj x y :
  is_u32 x = true -> is_u32 y = true -> u32_as_i32 x = u32_as_i32 y -> x = y.
Proof.
  unfold is_u32, u32_as_i32. rewrite !andb_true_iff, !Z.leb_le, !Z.ltb_lt.
  intros Hx Hy.
  destruct (Z.ltb_spec x (2 ^ 31)), (Z.ltb_spec y (2 ^ 31)); lia.
Qed.

Lemma i32_as_u32_u32_as_i32 x : is_u32 x = true -> i32_as_u32 (u32_as_i32 x) = x.
Proof.
  unfold is_u32, u32_as_i32, i32_as_u32. rewrite andb_true_iff, Z.leb_le, Z.ltb_lt.
  intros Hx. destruct (Z.ltb_spec x (2 ^ 31)).
  - apply Z.mod_small; lia.
  - replace (x - 2 ^ 32) with (x + (-1) * 2 ^ 32) by lia.
    rewrite Z.mod_add by lia. apply Z.mod_small; lia.
Qed.

Lemma bytes_eqb_refl b : bytes_eqb b b = true.
Proof. unfold bytes_eqb. destruct (list_eq_dec byte_eq_dec b b); congruence. Qed.

Lemma bytes_eqb_true a b : bytes_eqb a b = true <-> a = b.
Proof. unfold bytes_eqb. destruct (list_eq_dec byte_eq_dec a b); split; congruence. Qed.

Lemma NoDup_map_inj {A B C} (f : A -> B) (g : A -> C) (l : list A) :
  (forall x y, In x l -> In y l -> f x = f y -> g x = g y) ->
  NoDup (map g l) -> NoDup (map f l).
Proof.
  induction l as [|x l IH]; intros Hinj Hnd; simpl in *; [constructor|].
  apply NoDup_cons_iff in Hnd. destruct Hnd as [Hx Hnd]. constructor.
  - intros Hin. apply in_map_iff in Hin. destruct Hin as [y [Hy Hin]].
    apply Hx. rewrite (Hinj x y (or_introl eq_refl) (or_intror Hin) (eq_sym Hy)).
    apply in_map; exact Hin.
  - apply IH; [|exact Hnd]. intros a b Ha Hb. apply Hinj; right; assumption.
Qed.

(** ** Re-storing a batch whose keys are all present *)

Lemma store_dispatched_messages_present `{MessageId} mode now domain mb msgs d :
  db_up d = true -> msgs <> [] ->
  NoDup (map message_model_key (map_clock (fun t => message_active_model t (address_to_bytes mb)) now msgs)) ->
  Forall (fun a => In (message_model_key a) (map message_key (messages d)))
    (map_clock (fun t => message_active_model t (address_to_bytes mb)) now msgs) ->
  exists d', store_dispatched_messages mode now domain mb msgs d = (d', Ok 0).
Proof.
  intros Eup Hne Hnd Hin. rewrite store_dispatched_messages_nonempty by assumption.
  cbv zeta. unfold upsert_messages.
  destruct (upsert_present message_key_dec message_key message_model_key insert_message_row
              update_message_row (fun _ _ => eq_refl) (message_seq d) [] (messages d)
              (map_clock (fun t => message_active_model t (address_to_bytes mb)) now msgs))
    as [s' [rows' [Heq Hp]]].
  - exact Hnd.
  - eapply Forall_impl; [|exact Hin]. simpl. intros a Ha. split; [intros []|exact Ha].
  - rewrite Heq. eexists. f_equal. f_equal.
    set (b := unwrap_or (sql_max (map m_id (filter (message_filter domain (address_to_bytes mb))
                                            (messages d)))) 0).
    set (proj := fun r => (m_id r, m_origin r, m_origin_mailbox r)).
    set (g := fun p : Z * Z * bytes =>
                let '(i, o, mb') := p in
                ((o =? domain) && bytes_eqb mb' (address_to_bytes mb)) && (b <? i)).
    change (Z.of_nat (length (filter (fun r => g (proj r)) rows')) = 0).
    rewrite (count_proj proj g rows' (messages d)).
    + change (Z.of_nat (length (filter (fun r => message_filter domain (address_to_bytes mb) r
                                                && (b <? m_id r)) (messages d))) = 0).
      unfold b. rewrite count_above_max. reflexivity.
    + apply Hp. intros r a. reflexivity.
Qed.

Lemma store_deliveries_present mode now domain mb dels d :
  db_up d = true -> dels <> [] ->
  NoDup (map da_msg_id (map_clock (fun t => delivered_active_model t domain (address_to_bytes mb)) now dels)) ->
  Forall (fun a => In (da_msg_id a) (map d_msg_id (delivered_messages d)))
    (map_clock (fun t => delivered_active_model t domain (address_to_bytes mb)) now dels) ->
  exists d', store_deliveries mode now domain mb dels d = (d', Ok 0) /\
    exists s', upsert_deliveries (delivered_seq d) (delivered_messages d)
                 (map_clock (fun t => delivered_active_model t domain (address_to_bytes mb)) now dels)
               = (s', Some (delivered_messages d')).
Proof.
  intros Eup Hne Hnd Hin. rewrite store_deliveries_nonempty by assumption.
  cbv zeta. unfold upsert_deliveries.
  destruct (upsert_present (list_eq_dec byte_eq_dec) d_msg_id da_msg_id insert_delivered_row
              update_delivered_row (fun _ _ => eq_refl) (delivered_seq d) [] (delivered_messages d)
              (map_clock (fun t => delivered_active_model t domain (address_to_bytes mb)) now dels))
    as [s' [rows' [Heq Hp]]].
  - exact Hnd.
  - eapply Forall_impl; [|exact Hin]. simpl. intros a Ha. split; [intros []|exact Ha].
  - rewrite Heq. exists (set_deliveries d rows' s'). split; [|exists s'; reflexivity]. f_equal. f_equal.
    set (b := unwrap_or (sql_max (map d_id (filter (delivery_filter domain (address_to_bytes mb))
                                            (delivered_messages d)))) 0).
    set (proj := fun r => (d_id r, d_domain r, d_destination_mailbox r)).
    set (g := fun p : Z * Z * bytes =>
                let '(i, o, mb') := p in
                ((o =? domain) && bytes_eqb mb' (address_to_bytes mb)) && (b <? i)).
    change (Z.of_nat (length (filter (fun r => g (proj r)) rows')) = 0).
    rewrite (count_proj proj g rows' (delivered_messages d)).
    + change (Z.of_nat (length (filter (fun r => delivery_filter domain (address_to_bytes mb) r
                                                && (b <? d_id r)) (delivered_messages d))) = 0).
      unfold b. rewrite count_above_max. reflexivity.
    + apply Hp. intros r a. reflexivity.
Qed.

(** ** Storing a batch of new keys *)

Lemma store_dispatched_messages_fresh `{MessageId} mode now domain mb msgs d :
  db_wf d -> db_up d = true -> msgs <> [] ->
  NoDup (map message_model_key (map_clock (fun t => message_active_model t (address_to_bytes mb)) now msgs)) ->
  Forall (fun a => ~ In (message_model_key a) (map message_key (messages d)))
    (map_clock (fun t => message_active_model t (address_to_bytes mb)) now msgs) ->
  Forall (fun s => u32_as_i32 (origin (msg s)) = domain) msgs ->
  store_dispatched_messages mode now domain mb msgs d =
    (set_messages d (messages d ++ fresh_rows insert_message_row (message_seq d)
                                    (map_clock (fun t => message_active_model t (address_to_bytes mb)) now msgs))
       (message_seq d + Z.of_nat (length msgs)),
     Ok (Z.of_nat (length msgs))).
Proof.
  intros Hwf Eup Hne Hnd Hnew Horig.
  destruct Hwf as [Hs1 [_ [Hids [_ _]]]].
  rewrite store_dispatched_messages_nonempty by assumption. cbv zeta. unfold upsert_messages.
  rewrite (upsert_fresh message_key_dec message_key message_model_key insert_message_row
             update_message_row (fun _ _ => eq_refl)).
  - rewrite map_clock_length. f_equal. f_equal. f_equal.
    rewrite count_fresh with (seq := message_seq d).
    + rewrite length_fresh_rows, map_clock_length; reflexivity.
    + exact Hids.
    + exact Hs1.
    + apply Forall_forall. intros r Hr. apply in_fresh_rows in Hr.
      destruct Hr as [i [a [Hi [Ha ->]]]]. split; [|exact Hi].
      apply in_map_clock in Ha. destruct Ha as [j [s [Hj ->]]].
      pose proof (nth_error_In _ _ Hj) as Hs.
      rewrite Forall_forall in Horig. unfold message_filter. simpl.
      rewrite (Horig s Hs), Z.eqb_refl, bytes_eqb_refl. reflexivity.
  - exact Hnd.
  - eapply Forall_impl; [|exact Hnew]. simpl. intros a Ha. split; [intros []|exact Ha].
Qed.

Lemma store_deliveries_fresh mode now domain mb dels d :
  db_wf d -> db_up d = true -> dels <> [] ->
  NoDup (map da_msg_id (map_clock (fun t => delivered_active_model t domain (address_to_bytes mb)) now dels)) ->
  Forall (fun a => ~ In (da_msg_id a) (map d_msg_id (delivered_messages d)))
    (map_clock (fun t => delivered_active_model t domain (address_to_bytes mb)) now dels) ->
  u32_as_i32 domain = domain ->
  store_deliveries mode now domain mb dels d =
    (set_deliveries d (delivered_messages d ++
                         fresh_rows insert_delivered_row (delivered_seq d)
                           (map_clock (fun t => delivered_active_model t domain (address_to_bytes mb)) now dels))
       (delivered_seq d + Z.of_nat (length dels)),
     Ok (Z.of_nat (length dels))).
Proof.
  intros Hwf Eup Hne Hnd Hnew Hdom.
  destruct Hwf as [_ [Hs1 [_ [Hids _]]]].
  rewrite store_deliveries_nonempty by assumption. cbv zeta. unfold upsert_deliveries.
  rewrite (upsert_fresh (list_eq_dec byte_eq_dec) d_msg_id da_msg_id insert_delivered_row
             update_delivered_row (fun _ _ => eq_refl)).
  - rewrite map_clock_length. f_equal. f_equal. f_equal.
    rewrite count_fresh with (seq := delivered_seq d).
    + rewrite length_fresh_rows, map_clock_length; reflexivity.
    + exact Hids.
    + exact Hs1.
    + apply Forall_forall. intros r Hr. apply in_fresh_rows in Hr.
      destruct Hr as [i [a [Hi [Ha ->]]]]. split; [|exact Hi].
      apply in_map_clock in Ha. destruct Ha as [j [s [Hj ->]]].
      unfold delivery_filter. simpl.
      rewrite Hdom, Z.eqb_refl, bytes_eqb_refl. reflexivity.
  - exact Hnd.
  - eapply Forall_impl; [|exact Hnew]. simpl. intros a Ha. split; [intros []|exact Ha].
Qed.

(** ** Rows of one natural key *)

Lemma filter_key_nil {Row Key} (key_dec : forall a b : Key, {a = b} + {a <> b})
    (row_key : Row -> Key) k rows :
  ~ In k (map row_key rows) -> filter (has_key key_dec row_key k) rows = [].
Proof.
  intros Hn. apply filter_none. intros r Hr. apply has_key_false.
  intros He. apply Hn. rewrite <- He. apply in_map; exact Hr.
Qed.

Lemma filter_key_unique {Row Key} (key_dec : forall a b : Key, {a = b} + {a <> b})
    (row_key : Row -> Key) rows r :
  NoDup (map row_key rows) -> In r rows ->
  filter (has_key key_dec row_key (row_key r)) rows = [r].
Proof.
  induction rows as [|x rows IH]; intros Hnd Hr; [destruct Hr|].
  simpl in Hnd. apply NoDup_cons_iff in Hnd. destruct Hnd as [Hx Hnd]. simpl.
  destruct Hr as [<-|Hr].
  - assert (has_key key_dec row_key (row_key x) x = true) as -> by (apply has_key_spec; reflexivity).
    f_equal. apply filter_key_nil. exact Hx.
  - assert (has_key key_dec row_key (row_key r) x = false) as ->.
    { apply has_key_false. intros He. apply Hx. rewrite He. apply in_map; exact Hr. }
    apply IH; assumption.
Qed.

Lemma store_dispatched_messages_ok_inv `{MessageId} mode now domain mb msgs d d' n :
  store_dispatched_messages mode now domain mb msgs d = (d', Ok n) ->
  db_up d = true /\
  exists s', upsert_messages (message_seq d) (messages d)
               (map_clock (fun t => message_active_model t (address_to_bytes mb)) now msgs)
             = (s', Some (messages d')).
Proof.
  rewrite store_dispatched_messages_eq. destruct (db_up d); [|discriminate]. cbv zeta.
  intros Hs. split; [reflexivity|].
  destruct mode, (is_empty (map_clock (fun t => message_active_model t (address_to_bytes mb)) now msgs));
    try discriminate;
    destruct (upsert_messages (message_seq d) (messages d)
                (map_clock (fun t => message_active_model t (address_to_bytes mb)) now msgs)) as [s' [rows|]];
    try discriminate; injection Hs as <- _; exists s'; reflexivity.
Qed.

Lemma store_deliveries_ok_inv mode now domain mb dels d d' n :
  store_deliveries mode now domain mb dels d = (d', Ok n) ->
  db_up d = true /\ db_up d' = true /\
  exists s', upsert_deliveries (delivered_seq d) (delivered_messages d)
               (map_clock (fun t => delivered_active_model t domain (address_to_bytes mb)) now dels)
             = (s', Some (delivered_messages d')).
Proof.
  rewrite store_deliveries_eq. destruct (db_up d) eqn:Eup; [|discriminate]. cbv zeta.
  intros Hs. split; [reflexivity|].
  destruct mode, (is_empty (map_clock (fun t => delivered_active_model t domain (address_to_bytes mb)) now dels));
    try discriminate;
    destruct (upsert_deliveries (delivered_seq d) (delivered_messages d)
                (map_clock (fun t => delivered_active_model t domain (address_to_bytes mb)) now dels)) as [s' [rows|]];
    try discriminate; injection Hs as <- _; (split; [exact Eup|]); exists s'; reflexivity.
Qed.

Lemma upsert_ok_key_messages seq rows models s' rows' :
  upsert_messages seq rows models = (s', Some rows') ->
  forall k,
    (forall a, In a models -> message_model_key a = k ->
       filter (has_key message_key_dec message_key k) rows <> [] ->
       filter (has_key message_key_dec message_key k) rows'
       = map (fun r => update_message_row r a) (filter (has_key message_key_dec message_key k) rows)) /\
    (forall a, In a models -> message_model_key a = k ->
       filter (has_key message_key_dec message_key k) rows = [] ->
       exists i, seq <= i /\ filter (has_key message_key_dec message_key k) rows' = [insert_message_row i a]).
Proof.
  intros H k. apply (upsert_ok_key message_key_dec message_key message_model_key insert_message_row
                       update_message_row (fun _ _ => eq_refl) (fun _ _ => eq_refl)) with (k := k) in H.
  tauto.
Qed.

Lemma upsert_ok_key_deliveries seq rows models s' rows' :
  upsert_deliveries seq rows models = (s', Some rows') ->
  forall k,
    (forall a, In a models -> da_msg_id a = k ->
       filter (has_key (list_eq_dec byte_eq_dec) d_msg_id k) rows <> [] ->
       filter (has_key (list_eq_dec byte_eq_dec) d_msg_id k) rows'
       = map (fun r => update_delivered_row r a) (filter (has_key (list_eq_dec byte_eq_dec) d_msg_id k) rows)) /\
    (forall a, In a models -> da_msg_id a = k ->
       filter (has_key (list_eq_dec byte_eq_dec) d_msg_id k) rows = [] ->
       exists i, seq <= i /\ filter (has_key (list_eq_dec byte_eq_dec) d_msg_id k) rows' = [insert_delivered_row i a]).
Proof.
  intros H k. apply (upsert_ok_key (list_eq_dec byte_eq_dec) d_msg_id da_msg_id insert_delivered_row
                       update_delivered_row (fun _ _ => eq_refl) (fun _ _ => eq_refl)) with (k := k) in H.
  tauto.
Qed.

(** * Claims *)

(** ** Idempotent re-ingestion *)

(** C1 (amended): for a non-empty batch whose natural keys are pairwise
    distinct and not yet stored, with the [domain] argument below 2^31 and
    (for dispatched messages) every message originating at [domain], the
    first call returns the batch length, which is positive, and the
    immediate second call with the same batch returns 0; both for
    [store_dispatched_messages] and for [store_deliveries]. *)
Theorem store_batch_twice_new_then_zero :
  (forall `{MessageId} mode now1 now2 domain mb msgs d,
     db_wf d -> db_up d = true -> msgs <> [] ->
     0 <= domain < 2 ^ 31 ->
     Forall (fun s => origin (msg s) = domain /\ is_u32 (nonce (msg s)) = true) msgs ->
     NoDup (map (fun s => nonce (msg s)) msgs) ->
     Forall (fun s => ~ In (address_to_bytes mb, u32_as_i32 (origin (msg s)),
                           u32_as_i32 (nonce (msg s)))
                          (map message_key (messages d))) msgs ->
     exists d1 d2,
       store_dispatched_messages mode now1 domain mb msgs d = (d1, Ok (Z.of_nat (length msgs))) /\
       0 < Z.of_nat (length msgs) /\
       store_dispatched_messages mode now2 domain mb msgs d1 = (d2, Ok 0)) /\
  (forall mode now1 now2 domain mb dels d,
     db_wf d -> db_up d = true -> dels <> [] ->
     0 <= domain < 2 ^ 31 ->
     NoDup (map delivery_message_id dels) ->
     Forall (fun e => ~ In (h256_to_bytes (delivery_message_id e))
                          (map d_msg_id (delivered_messages d))) dels ->
     exists d1 d2,
       store_deliveries mode now1 domain mb dels d = (d1, Ok (Z.of_nat (length dels))) /\
       0 < Z.of_nat (length dels) /\
       store_deliveries mode now2 domain mb dels d1 = (d2, Ok 0)).
Proof.
  split.
  - intros Hid mode now1 now2 domain mb msgs d Hwf Eup Hne Hdom Hmsgs Hnd Hnew.
    assert (Hlen : 0 < Z.of_nat (length msgs))
      by (destruct msgs; [contradiction | simpl; lia]).
    assert (Hkeys : forall now,
      map message_model_key (map_clock (fun t => message_active_model t (address_to_bytes mb)) now msgs)
      = map (fun s => (address_to_bytes mb, u32_as_i32 (origin (msg s)), u32_as_i32 (nonce (msg s))))
          msgs) by (intros now; apply map_map_clock; reflexivity).
    assert (Hnd' : forall now,
      NoDup (map message_model_key (map_clock (fun t => message_active_model t (address_to_bytes mb)) now msgs))).
    { intros now. rewrite Hkeys.
      apply (NoDup_map_inj _ (fun s => nonce (msg s))); [|exact Hnd].
      intros x y Hx Hy Hxy. injection Hxy as _ Hn.
      rewrite Forall_forall in Hmsgs.
      apply u32_as_i32_inj; [apply (Hmsgs x Hx) | apply (Hmsgs y Hy) | exact Hn]. }
    exists (set_messages d (messages d ++ fresh_rows insert_message_row (message_seq d)
                                 (map_clock (fun t => message_active_model t (address_to_bytes mb)) now1 msgs))
         (message_seq d + Z.of_nat (length msgs))).
    destruct (store_dispatched_messages_present mode now2 domain mb msgs
                (set_messages d (messages d ++ fresh_rows insert_message_row (message_seq d)
                                 (map_clock (fun t => message_active_model t (address_to_bytes mb)) now1 msgs))
                   (message_seq d + Z.of_nat (length msgs))))
      as [d2 Hd2].
    + exact Eup.
    + exact Hne.
    + apply Hnd'.
    + apply Forall_forall. intros a Ha. simpl. rewrite map_app.
      apply in_or_app. right.
      rewrite (map_key_fresh_rows insert_message_row message_key message_model_key
                 (message_seq d) _ (fun _ _ => eq_refl)).
      rewrite Hkeys. rewrite <- (Hkeys now2). apply in_map. exact Ha.
    + exists d2. split; [|split; [exact Hlen | exact Hd2]].
      apply store_dispatched_messages_fresh; auto.
      * rewrite Forall_forall in Hnew |- *. intros a Ha.
        apply in_map_clock in Ha. destruct Ha as [j [s [Hj ->]]].
        exact (Hnew s (nth_error_In _ _ Hj)).
      * eapply Forall_impl; [|exact Hmsgs]. simpl. intros s [-> _].
        apply u32_as_i32_small; lia.
  - intros mode now1 now2 domain mb dels d Hwf Eup Hne Hdom Hnd Hnew.
    assert (Hlen : 0 < Z.of_nat (length dels))
      by (destruct dels; [contradiction | simpl; lia]).
    assert (Hkeys : forall now,
      map da_msg_id (map_clock (fun t => delivered_active_model t domain (address_to_bytes mb)) now dels)
      = map delivery_message_id dels) by (intros now; apply map_map_clock; reflexivity).
    exists (set_deliveries d (delivered_messages d ++
                                fresh_rows insert_delivered_row (delivered_seq d)
                                  (map_clock (fun t => delivered_active_model t domain (address_to_bytes mb)) now1 dels))
         (delivered_seq d + Z.of_nat (length dels))).
    destruct (store_deliveries_present mode now2 domain mb dels
                (set_deliveries d (delivered_messages d ++
                                fresh_rows insert_delivered_row (delivered_seq d)
                                  (map_clock (fun t => delivered_active_model t domain (address_to_bytes mb)) now1 dels))
                   (delivered_seq d + Z.of_nat (length dels))))
      as [d2 [Hd2 _]].
    + exact Eup.
    + exact Hne.
    + rewrite Hkeys; exact Hnd.
    + apply Forall_forall. intros a Ha. simpl. rewrite map_app.
      apply in_or_app. right.
      rewrite (map_key_fresh_rows insert_delivered_row d_msg_id da_msg_id
                 (delivered_seq d) _ (fun _ _ => eq_refl)).
      rewrite Hkeys. rewrite <- (Hkeys now2). apply in_map. exact Ha.
    + exists d2. split; [|split; [exact Hlen | exact Hd2]].
      apply store_deliveries_fresh; auto.
      * rewrite Hkeys; exact Hnd.
      * rewrite Forall_forall in Hnew |- *. intros a Ha.
        apply in_map_clock in Ha. destruct Ha as [j [s [Hj ->]]].
        exact (Hnew s (nth_error_In _ _ Hj)).
      * apply u32_as_i32_small; lia.
Qed.

Lemma store_batch_twice_new_then_zero_witness :
  exists d1 d2,
    @store_dispatched_messages sample_message_id Debug (sample_clock 0) 1 sample_mailbox
      [sample_storable 1 5 100; sample_storable 1 6 101] empty_db = (d1, Ok 2) /\
    0 < 2 /\
    @store_dispatched_messages sample_message_id Debug (sample_clock 1) 1 sample_mailbox
      [sample_storable 1 5 100; sample_storable 1 6 101] d1 = (d2, Ok 0).
Proof.
  apply (proj1 store_batch_twice_new_then_zero sample_message_id Debug (sample_clock 0) (sample_clock 1) 1 sample_mailbox
           [sample_storable 1 5 100; sample_storable 1 6 101] empty_db).
  - unfold db_wf; simpl. repeat split; try lia; constructor.
  - reflexivity.
  - discriminate.
  - lia.
  - repeat constructor.
  - simpl. constructor; [simpl; intros [H|[]]; discriminate|].
    constructor; [simpl; tauto | constructor].
  - simpl. repeat constructor; simpl; tauto.
Defined.

(** C1, as stated, fails: a new message whose origin is not the [domain]
    argument is not counted; two messages with the same nonce in one batch
    abort the upsert; a [domain] of 2^31 or more never matches the [i32]
    column it was written to, so nothing is counted. *)
Lemma store_batch_new_count_counterexample :
  snd (@store_dispatched_messages sample_message_id Debug (sample_clock 0) 1 sample_mailbox
         [sample_storable 2 0 100] empty_db) = Ok 0 /\
  snd (@store_dispatched_messages sample_message_id Debug (sample_clock 0) 1 sample_mailbox
         [sample_storable 1 0 100; sample_storable 1 0 101] empty_db) = Err CardinalityViolation /\
  snd (store_deliveries Debug (sample_clock 0) (2 ^ 31) sample_mailbox
         [sample_delivery x01 200] empty_db) = Ok 0.
Proof. vm_compute. split; [reflexivity | split; reflexivity]. Qed.

(** ** Conflict handling of the message upsert *)

(** C4: when a successful [store_dispatched_messages] batch contains a
    message whose natural key (origin_mailbox, origin, nonce) is already
    stored, exactly one row holds that key afterwards; it keeps its id, its
    msg_id and its key columns, and its time_created, destination, sender,
    recipient, msg_body and origin_tx_id are the ones of the new message
    (so its body is the latest body); its time_created is the clock
    reading taken for that message's position [j] in the batch. *)
Theorem store_dispatched_messages_conflict_refresh `{MessageId} mode now domain mb msgs d d' n j s r :
  NoDup (map message_key (messages d)) ->
  nth_error msgs j = Some s -> In r (messages d) ->
  message_key r = (address_to_bytes mb, u32_as_i32 (origin (msg s)), u32_as_i32 (nonce (msg s))) ->
  store_dispatched_messages mode now domain mb msgs d = (d', Ok n) ->
  exists r',
    filter (has_key message_key_dec message_key (message_key r)) (messages d') = [r'] /\
    m_id r' = m_id r /\ m_msg_id r' = m_msg_id r /\ message_key r' = message_key r /\
    m_time_created r' = now j /\
    m_destination r' = u32_as_i32 (destination (msg s)) /\
    m_sender r' = address_to_bytes (sender (msg s)) /\
    m_recipient r' = address_to_bytes (recipient (msg s)) /\
    m_msg_body r' = (if is_empty (body (msg s)) then None else Some (body (msg s))) /\
    m_origin_tx_id r' = txn_id s.
Proof.
  intros Hnd Hs Hr Hk Hstore.
  apply store_dispatched_messages_ok_inv in Hstore. destruct Hstore as [_ [s' Hups]].
  destruct (upsert_ok_key_messages _ _ _ _ _ Hups (message_key r)) as [Hupd _].
  rewrite (Hupd (message_active_model (now j) (address_to_bytes mb) s)).
  - rewrite (filter_key_unique message_key_dec message_key (messages d) r Hnd Hr). simpl.
    eexists; split; [reflexivity|].
    repeat split; reflexivity.
  - exact (map_clock_nth (fun t => message_active_model t (address_to_bytes mb)) now msgs j s Hs).
  - rewrite Hk; reflexivity.
  - rewrite (filter_key_unique message_key_dec message_key (messages d) r Hnd Hr). discriminate.
Qed.

Lemma store_dispatched_messages_conflict_refresh_witness :
  exists r',
    filter (has_key message_key_dec message_key
              (address_to_bytes sample_mailbox, 1, 5))
      (messages (fst (@store_dispatched_messages sample_message_id Debug (sample_clock 7) 1 sample_mailbox
                        [{| msg := sample_message 1 5 [x02]; txn_id := 101 |}]
                        (fst (@store_dispatched_messages sample_message_id Debug (sample_clock 0) 1 sample_mailbox
                                [{| msg := sample_message 1 5 [x01]; txn_id := 100 |}] empty_db)))))
    = [r'] /\ m_msg_body r' = Some [x02] /\ m_origin_tx_id r' = 101.
Proof.
  destruct (store_dispatched_messages_conflict_refresh (H := sample_message_id) Debug (sample_clock 7) 1 sample_mailbox
              [{| msg := sample_message 1 5 [x02]; txn_id := 101 |}]
              (fst (@store_dispatched_messages sample_message_id Debug (sample_clock 0) 1 sample_mailbox
                      [{| msg := sample_message 1 5 [x01]; txn_id := 100 |}] empty_db))
              (fst (@store_dispatched_messages sample_message_id Debug (sample_clock 7) 1 sample_mailbox
                      [{| msg := sample_message 1 5 [x02]; txn_id := 101 |}]
                      (fst (@store_dispatched_messages sample_message_id Debug (sample_clock 0) 1 sample_mailbox
                              [{| msg := sample_message 1 5 [x01]; txn_id := 100 |}] empty_db))))
              0 0
              {| msg := sample_message 1 5 [x02]; txn_id := 101 |}
              (insert_message_row 1
                 (@message_active_model sample_message_id 0 (address_to_bytes sample_mailbox)
                    {| msg := sample_message 1 5 [x01]; txn_id := 100 |})))
    as [r' [Hf [_ [_ [_ [_ [_ [_ [_ [Hb Htx]]]]]]]]]].
  - vm_compute. constructor; [intros [] | constructor].
  - reflexivity.
  - vm_compute. left; reflexivity.
  - reflexivity.
  - vm_compute. reflexivity.
  - exists r'. split; [exact Hf|]. split; [exact Hb | exact Htx].
Defined.

(** C9: the msg_id column is not refreshed on conflict: when a successful
    [store_dispatched_messages] batch holds, at any position [j], a message
    [s] whose (origin_mailbox, origin, nonce) key is the key of a stored
    row [r], the single row of that key afterwards keeps the msg_id of [r]
    (so if it differed from the hash of [s] it still differs) while its
    destination, sender, recipient, body and origin_tx_id are those of [s]. *)
Theorem store_conflict_keeps_msg_id `{MessageId} mode now domain mb msgs d d' n j s r :
  NoDup (map message_key (messages d)) ->
  nth_error msgs j = Some s -> In r (messages d) ->
  message_key r = (address_to_bytes mb, u32_as_i32 (origin (msg s)), u32_as_i32 (nonce (msg s))) ->
  store_dispatched_messages mode now domain mb msgs d = (d', Ok n) ->
  exists r',
    filter (has_key message_key_dec message_key (message_key r)) (messages d') = [r'] /\
    m_msg_id r' = m_msg_id r /\
    (m_msg_id r <> h256_to_bytes (message_id (msg s)) ->
     m_msg_id r' <> h256_to_bytes (message_id (msg s))) /\
    m_destination r' = u32_as_i32 (destination (msg s)) /\
    m_sender r' = address_to_bytes (sender (msg s)) /\
    m_recipient r' = address_to_bytes (recipient (msg s)) /\
    m_msg_body r' = (if is_empty (body (msg s)) then None else Some (body (msg s))) /\
    m_origin_tx_id r' = txn_id s.
Proof.
  intros Hnd Hs Hr Hk Hstore.
  apply store_dispatched_messages_ok_inv in Hstore. destruct Hstore as [_ [s' Hups]].
  destruct (upsert_ok_key_messages _ _ _ _ _ Hups (message_key r)) as [Hupd _].
  rewrite (Hupd (message_active_model (now j) (address_to_bytes mb) s)).
  - rewrite (filter_key_unique message_key_dec message_key (messages d) r Hnd Hr). simpl.
    eexists; split; [reflexivity|].
    split; [reflexivity|]. split; [intros Hne; exact Hne|].
    repeat split; reflexivity.
  - exact (map_clock_nth (fun t => message_active_model t (address_to_bytes mb)) now msgs j s Hs).
  - rewrite Hk; reflexivity.
  - rewrite (filter_key_unique message_key_dec message_key (messages d) r Hnd Hr). discriminate.
Qed.

Lemma store_conflict_keeps_msg_id_witness :
  exists r',
    filter (has_key message_key_dec message_key (address_to_bytes sample_mailbox, 1, 5))
      (messages (fst (@store_dispatched_messages sample_message_id Debug (sample_clock 1) 1 sample_mailbox
                        [{| msg := sample_message 1 6 [x03]; txn_id := 102 |};
                         {| msg := sample_message 1 5 [x02]; txn_id := 101 |}]
                        (fst (@store_dispatched_messages sample_message_id Debug (sample_clock 0) 1 sample_mailbox
                                [{| msg := sample_message 1 5 [x01]; txn_id := 100 |}] empty_db)))))
    = [r'] /\
    m_msg_id r' <> sample_message_id (sample_message 1 5 [x02]) /\
    m_msg_body r' = Some [x02].
Proof.
  destruct (store_conflict_keeps_msg_id (H := sample_message_id) Debug (sample_clock 1) 1 sample_mailbox
              [{| msg := sample_message 1 6 [x03]; txn_id := 102 |};
               {| msg := sample_message 1 5 [x02]; txn_id := 101 |}]
              (fst (@store_dispatched_messages sample_message_id Debug (sample_clock 0) 1 sample_mailbox
                      [{| msg := sample_message 1 5 [x01]; txn_id := 100 |}] empty_db))
              (fst (@store_dispatched_messages sample_message_id Debug (sample_clock 1) 1 sample_mailbox
                      [{| msg := sample_message 1 6 [x03]; txn_id := 102 |};
                       {| msg := sample_message 1 5 [x02]; txn_id := 101 |}]
                      (fst (@store_dispatched_messages sample_message_id Debug (sample_clock 0) 1 sample_mailbox
                              [{| msg := sample_message 1 5 [x01]; txn_id := 100 |}] empty_db))))
              1 1
              {| msg := sample_message 1 5 [x02]; txn_id := 101 |}
              (insert_message_row 1
                 (@message_active_model sample_message_id 0 (address_to_bytes sample_mailbox)
                    {| msg := sample_message 1 5 [x01]; txn_id := 100 |})))
    as [r' [Hf [_ [Hne [_ [_ [_ [Hb _]]]]]]]].
  - vm_compute. constructor; [intros [] | constructor].
  - reflexivity.
  - vm_compute. left; reflexivity.
  - reflexivity.
  - vm_compute. reflexivity.
  - exists r'. split; [exact Hf|]. split; [|exact Hb].
    apply Hne. vm_compute. discriminate.
Defined.

(** ** Conflict handling of the delivery upsert *)

Lemma upsert_single {Row Model Key} (key_dec : forall a b : Key, {a = b} + {a <> b})
    (row_key : Row -> Key) (model_key : Model -> Key) insert_row update_row seq rows a :
  exists rows',
    upsert key_dec row_key model_key insert_row update_row seq [] rows [a] = (seq + 1, Some rows').
Proof.
  simpl. destruct (existsb (has_key key_dec row_key (model_key a)) rows); eexists; reflexivity.
Qed.

(** C5: storing a delivery for message id [X] with transaction id 200 and
    then the same [X] with transaction id 201 (same domain and mailbox)
    succeeds both times, the second call reports 0 new rows, and exactly
    one delivery row holds [X] afterwards: the row of the first call, with
    its id, msg_id, domain and mailbox, whose time_created and
    destination_tx_id are refreshed (to 201). *)
Theorem store_delivery_restore_refreshes_tx mode now1 now2 domain mb X d :
  db_wf d -> db_up d = true ->
  exists d1 n1 d2,
    store_deliveries mode now1 domain mb
      [{| delivery_message_id := X; delivery_txn_id := 200 |}] d = (d1, Ok n1) /\
    store_deliveries mode now2 domain mb
      [{| delivery_message_id := X; delivery_txn_id := 201 |}] d1 = (d2, Ok 0) /\
    exists r1 r2,
      filter (has_key (list_eq_dec byte_eq_dec) d_msg_id (h256_to_bytes X))
        (delivered_messages d1) = [r1] /\
      filter (has_key (list_eq_dec byte_eq_dec) d_msg_id (h256_to_bytes X))
        (delivered_messages d2) = [r2] /\
      d_destination_tx_id r2 = 201 /\ d_time_created r2 = now2 O /\
      d_id r2 = d_id r1 /\ d_msg_id r2 = d_msg_id r1 /\
      d_domain r2 = d_domain r1 /\ d_destination_mailbox r2 = d_destination_mailbox r1.
Proof.
  intros Hwf Eup.
  set (e1 := {| delivery_message_id := X; delivery_txn_id := 200 |}).
  set (e2 := {| delivery_message_id := X; delivery_txn_id := 201 |}).
  destruct (upsert_single (list_eq_dec byte_eq_dec) d_msg_id da_msg_id insert_delivered_row
              update_delivered_row (delivered_seq d) (delivered_messages d)
              (delivered_active_model (now1 O) domain (address_to_bytes mb) e1)) as [rows1 Hu1].
  pose proof (store_deliveries_nonempty mode now1 domain mb [e1] d Eup ltac:(discriminate)) as Hs1.
  cbv zeta in Hs1. unfold upsert_deliveries in Hs1. simpl map_clock in Hs1. rewrite Hu1 in Hs1.
  set (d1 := set_deliveries d rows1 (delivered_seq d + 1)) in Hs1.
  (* the single row of X after the first call *)
  assert (exists r1, filter (has_key (list_eq_dec byte_eq_dec) d_msg_id (h256_to_bytes X)) rows1 = [r1]) as [r1 Hf1].
  { assert (Hu1' : upsert_deliveries (delivered_seq d) (delivered_messages d)
                     [delivered_active_model (now1 O) domain (address_to_bytes mb) e1]
                   = (delivered_seq d + 1, Some rows1)) by exact Hu1.
    destruct (upsert_ok_key_deliveries _ _ _ _ _ Hu1' (h256_to_bytes X)) as [Hupd Hins].
    destruct (filter (has_key (list_eq_dec byte_eq_dec) d_msg_id (h256_to_bytes X)) (delivered_messages d)) as [|r0 rest] eqn:Ef.
    - destruct (Hins (delivered_active_model (now1 O) domain (address_to_bytes mb) e1))
        as [i [_ Hf]]; [left; reflexivity | reflexivity | reflexivity |].
      exists (insert_delivered_row i (delivered_active_model (now1 O) domain (address_to_bytes mb) e1)).
      exact Hf.
    - assert (Hr0 : In r0 (filter (has_key (list_eq_dec byte_eq_dec) d_msg_id (h256_to_bytes X)) (delivered_messages d))) by (rewrite Ef; left; reflexivity).
      apply filter_In in Hr0. destruct Hr0 as [Hr0 Hk0].
      apply has_key_spec in Hk0.
      destruct Hwf as [_ [_ [_ [_ [_ Hnd]]]]].
      pose proof (filter_key_unique (list_eq_dec byte_eq_dec) d_msg_id _ r0 Hnd Hr0) as Hu.
      rewrite Hk0, Ef in Hu. injection Hu as ->.
      exists (update_delivered_row r0 (delivered_active_model (now1 O) domain (address_to_bytes mb) e1)).
      rewrite (Hupd (delivered_active_model (now1 O) domain (address_to_bytes mb) e1)).
      + reflexivity.
      + left; reflexivity.
      + reflexivity.
      + discriminate. }
  destruct (store_deliveries_present mode now2 domain mb [e2] d1) as [d2 [Hs2 [s2 Hu2]]].
  - exact Eup.
  - discriminate.
  - simpl. constructor; [intros [] | constructor].
  - simpl. constructor; [|constructor].
    assert (Hr1 : In r1 (filter (has_key (list_eq_dec byte_eq_dec) d_msg_id (h256_to_bytes X)) rows1)) by (rewrite Hf1; left; reflexivity).
    apply filter_In in Hr1. destruct Hr1 as [Hr1 Hk1]. apply has_key_spec in Hk1.
    change (In (h256_to_bytes X) (map d_msg_id rows1)).
    rewrite <- Hk1. apply in_map. exact Hr1.
  - exists d1, (Z.of_nat (length (filter (fun r => delivery_filter domain (address_to_bytes mb) r
                 && (unwrap_or (sql_max (map d_id (filter (delivery_filter domain (address_to_bytes mb))
                                                   (delivered_messages d)))) 0 <? d_id r)) rows1))), d2.
    split; [exact Hs1|]. split; [exact Hs2|].
    destruct (upsert_ok_key_deliveries _ _ _ _ _ Hu2 (h256_to_bytes X)) as [Hupd _].
    exists r1, (update_delivered_row r1 (delivered_active_model (now2 O) domain (address_to_bytes mb) e2)).
    split; [exact Hf1|].
    rewrite (Hupd (delivered_active_model (now2 O) domain (address_to_bytes mb) e2)).
    + simpl delivered_messages. rewrite Hf1. split; [reflexivity|].
      repeat split; reflexivity.
    + left; reflexivity.
    + reflexivity.
    + simpl delivered_messages. rewrite Hf1. discriminate.
Qed.

Lemma store_delivery_restore_refreshes_tx_witness :
  exists d1 n1 d2,
    store_deliveries Debug (sample_clock 10) 1 sample_mailbox
      [{| delivery_message_id := repeat x01 32; delivery_txn_id := 200 |}] empty_db = (d1, Ok n1) /\
    store_deliveries Debug (sample_clock 20) 1 sample_mailbox
      [{| delivery_message_id := repeat x01 32; delivery_txn_id := 201 |}] d1 = (d2, Ok 0) /\
    exists r1 r2,
      filter (has_key (list_eq_dec byte_eq_dec) d_msg_id (h256_to_bytes (repeat x01 32)))
        (delivered_messages d1) = [r1] /\
      filter (has_key (list_eq_dec byte_eq_dec) d_msg_id (h256_to_bytes (repeat x01 32)))
        (delivered_messages d2) = [r2] /\
      d_destination_tx_id r2 = 201 /\ d_time_created r2 = 20 /\
      d_id r2 = d_id r1 /\ d_msg_id r2 = d_msg_id r1 /\
      d_domain r2 = d_domain r1 /\ d_destination_mailbox r2 = d_destination_mailbox r1.
Proof.
  apply (store_delivery_restore_refreshes_tx Debug (sample_clock 10) (sample_clock 20) 1 sample_mailbox (repeat x01 32) empty_db).
  - unfold db_wf; simpl. repeat split; try lia; constructor.
  - reflexivity.
Defined.

(** ** Watermark baseline *)

(** C6: both baseline queries ([latest_dispatched_id] and
    [latest_deliveries_id]) leave the store unchanged; when the store
    answers they return 0 on an empty filtered set and otherwise the
    largest id of a matching row; they fail exactly when the query itself
    fails. *)
Theorem latest_ids_baseline domain mb d :
  fst (latest_dispatched_id domain mb d) = d /\
  (db_up d = true ->
     (filter (message_filter domain mb) (messages d) = [] ->
        latest_dispatched_id domain mb d = (d, Ok 0)) /\
     (filter (message_filter domain mb) (messages d) <> [] ->
        exists m, latest_dispatched_id domain mb d = (d, Ok m) /\
          In m (map m_id (filter (message_filter domain mb) (messages d))) /\
          Forall (fun i => i <= m) (map m_id (filter (message_filter domain mb) (messages d))))) /\
  ((exists e, snd (latest_dispatched_id domain mb d) = Err e) <-> db_up d = false) /\
  fst (latest_deliveries_id domain mb d) = d /\
  (db_up d = true ->
     (filter (delivery_filter domain mb) (delivered_messages d) = [] ->
        latest_deliveries_id domain mb d = (d, Ok 0)) /\
     (filter (delivery_filter domain mb) (delivered_messages d) <> [] ->
        exists m, latest_deliveries_id domain mb d = (d, Ok m) /\
          In m (map d_id (filter (delivery_filter domain mb) (delivered_messages d))) /\
          Forall (fun i => i <= m) (map d_id (filter (delivery_filter domain mb) (delivered_messages d))))) /\
  ((exists e, snd (latest_deliveries_id domain mb d) = Err e) <-> db_up d = false).
Proof.
  unfold latest_dispatched_id, latest_deliveries_id, bind, query.
  destruct (db_up d) eqn:Eup.
  - cbn. split; [reflexivity|]. split.
    { intros _. split.
      - intros ->. reflexivity.
      - intros Hne. destruct (sql_max (map m_id (filter (message_filter domain mb) (messages d))))
          as [m|] eqn:E.
        + exists m. split; [reflexivity|]. apply sql_max_spec in E. exact E.
        + apply sql_max_none in E. apply map_eq_nil in E. contradiction. }
    split.
    { split; [intros [e He]|discriminate].
      destruct (sql_max _); discriminate. }
    split; [reflexivity|]. split.
    { intros _. split.
      - intros ->. reflexivity.
      - intros Hne. destruct (sql_max (map d_id (filter (delivery_filter domain mb) (delivered_messages d))))
          as [m|] eqn:E.
        + exists m. split; [reflexivity|]. apply sql_max_spec in E. exact E.
        + apply sql_max_none in E. apply map_eq_nil in E. contradiction. }
    split; [intros [e He]|discriminate].
    destruct (sql_max _); discriminate.
  - cbn. repeat split; try discriminate; eauto.
Qed.

Lemma latest_ids_baseline_witness :
  let d := fst (@store_dispatched_messages sample_message_id Debug (sample_clock 0) 1 sample_mailbox
                  [sample_storable 1 5 100; sample_storable 1 6 101] empty_db) in
  fst (latest_dispatched_id 1 (address_to_bytes sample_mailbox) d) = d /\
  (db_up d = true ->
     (filter (message_filter 1 (address_to_bytes sample_mailbox)) (messages d) = [] ->
        latest_dispatched_id 1 (address_to_bytes sample_mailbox) d = (d, Ok 0)) /\
     (filter (message_filter 1 (address_to_bytes sample_mailbox)) (messages d) <> [] ->
        exists m, latest_dispatched_id 1 (address_to_bytes sample_mailbox) d = (d, Ok m) /\
          In m (map m_id (filter (message_filter 1 (address_to_bytes sample_mailbox)) (messages d))) /\
          Forall (fun i => i <= m) (map m_id (filter (message_filter 1 (address_to_bytes sample_mailbox)) (messages d))))) /\
  ((exists e, snd (latest_dispatched_id 1 (address_to_bytes sample_mailbox) d) = Err e) <-> db_up d = false) /\
  fst (latest_deliveries_id 1 (address_to_bytes sample_mailbox) d) = d /\
  (db_up d = true ->
     (filter (delivery_filter 1 (address_to_bytes sample_mailbox)) (delivered_messages d) = [] ->
        latest_deliveries_id 1 (address_to_bytes sample_mailbox) d = (d, Ok 0)) /\
     (filter (delivery_filter 1 (address_to_bytes sample_mailbox)) (delivered_messages d) <> [] ->
        exists m, latest_deliveries_id 1 (address_to_bytes sample_mailbox) d = (d, Ok m) /\
          In m (map d_id (filter (delivery_filter 1 (address_to_bytes sample_mailbox)) (delivered_messages d))) /\
          Forall (fun i => i <= m) (map d_id (filter (delivery_filter 1 (address_to_bytes sample_mailbox)) (delivered_messages d))))) /\
  ((exists e, snd (latest_deliveries_id 1 (address_to_bytes sample_mailbox) d) = Err e) <-> db_up d = false).
Proof.
  intros d. exact (latest_ids_baseline 1 (address_to_bytes sample_mailbox) d).
Defined.

(** ** Transaction id of a dispatched message *)

Lemma find_filter_nil {A} (p : A -> bool) l :
  filter p l = [] -> find p l = None.
Proof.
  induction l as [|x t IH]; simpl; [reflexivity|].
  destruct (p x); [discriminate | exact IH].
Qed.

Lemma find_filter_single {A} (p : A -> bool) l r :
  filter p l = [r] -> find p l = Some r.
Proof.
  induction l as [|x t IH]; simpl; [discriminate|].
  destruct (p x); [intros H; injection H as -> _; reflexivity | exact IH].
Qed.

(** C8: whenever at most one row matches (origin_domain, origin_mailbox,
    nonce), the [MAX(origin_tx_id) .. GROUP BY origin] query of
    [retrieve_dispatched_tx_id] gives the same answer as a point lookup,
    and when no row matches (and the store answers) it returns [None]. *)
Theorem retrieve_dispatched_tx_id_point_lookup origin_domain origin_mailbox nonce d :
  (length (filter (message_nonce_filter origin_domain (address_to_bytes origin_mailbox) nonce)
             (messages d)) <= 1)%nat ->
  retrieve_dispatched_tx_id origin_domain origin_mailbox nonce d
    = dispatched_tx_id_point_lookup origin_domain origin_mailbox nonce d /\
  (db_up d = true ->
   filter (message_nonce_filter origin_domain (address_to_bytes origin_mailbox) nonce)
     (messages d) = [] ->
   retrieve_dispatched_tx_id origin_domain origin_mailbox nonce d = (d, Ok None)).
Proof.
  intros Hle.
  unfold retrieve_dispatched_tx_id, dispatched_tx_id_point_lookup, bind, query.
  destruct (filter (message_nonce_filter origin_domain (address_to_bytes origin_mailbox) nonce)
              (messages d)) as [|r [|r' rest]] eqn:Ef.
  - rewrite (find_filter_nil _ _ Ef).
    destruct (db_up d); split; try reflexivity; discriminate.
  - rewrite (find_filter_single _ _ _ Ef).
    split; [|intros _; discriminate].
    destruct (db_up d); [|reflexivity].
    simpl. rewrite Z.eqb_refl. reflexivity.
  - simpl in Hle. lia.
Qed.

Lemma retrieve_dispatched_tx_id_point_lookup_witness :
  let d := fst (@store_dispatched_messages sample_message_id Debug (sample_clock 0) 1 sample_mailbox
                  [sample_storable 1 5 100; sample_storable 1 6 101] empty_db) in
  (length (filter (message_nonce_filter 1 (address_to_bytes sample_mailbox) 6)
             (messages d)) <= 1)%nat /\
  retrieve_dispatched_tx_id 1 sample_mailbox 6 d
    = dispatched_tx_id_point_lookup 1 sample_mailbox 6 d /\
  (db_up d = true ->
   filter (message_nonce_filter 1 (address_to_bytes sample_mailbox) 6) (messages d) = [] ->
   retrieve_dispatched_tx_id 1 sample_mailbox 6 d = (d, Ok None)).
Proof.
  intros d. assert (H : (length (filter (message_nonce_filter 1 (address_to_bytes sample_mailbox) 6)
             (messages d)) <= 1)%nat) by (vm_compute; lia).
  split; [exact H|].
  exact (retrieve_dispatched_tx_id_point_lookup 1 sample_mailbox 6 d H).
Defined.

(** ** Empty batches *)

(** C7 (amended): an empty batch passed to [store_dispatched_messages] or
    [store_deliveries] (with the store reachable) is never accepted and
    writes nothing: in a build with debug assertions the [debug_assert!]
    panics; in a release build the assertion is compiled out and the empty
    [Insert::many] is refused by the database, so the call returns a
    database error.  A non-empty batch never makes either function panic,
    in any build. *)
Theorem store_empty_batch_assertion `{MessageId} now domain mb d :
  db_up d = true ->
  store_dispatched_messages Debug now domain mb [] d = (d, Panic) /\
  store_deliveries Debug now domain mb [] d = (d, Panic) /\
  store_dispatched_messages Release now domain mb [] d = (d, Err QueryError) /\
  store_deliveries Release now domain mb [] d = (d, Err QueryError) /\
  (forall mode msgs, msgs <> [] ->
     snd (store_dispatched_messages mode now domain mb msgs d) <> Panic) /\
  (forall mode dels, dels <> [] ->
     snd (store_deliveries mode now domain mb dels d) <> Panic).
Proof.
  intros Eup. split; [|split; [|split; [|split; [|split]]]].
  - rewrite store_dispatched_messages_eq, Eup. reflexivity.
  - rewrite store_deliveries_eq, Eup. reflexivity.
  - rewrite store_dispatched_messages_eq, Eup. reflexivity.
  - rewrite store_deliveries_eq, Eup. reflexivity.
  - intros mode msgs Hne. rewrite store_dispatched_messages_nonempty by assumption.
    cbv zeta. destruct (upsert_messages _ _ _) as [s [rows|]]; discriminate.
  - intros mode dels Hne. rewrite store_deliveries_nonempty by assumption.
    cbv zeta. destruct (upsert_deliveries _ _ _) as [s [rows|]]; discriminate.
Qed.

Lemma store_empty_batch_assertion_witness :
  db_up empty_db = true /\
  @store_dispatched_messages sample_message_id Debug (sample_clock 0) 1 sample_mailbox [] empty_db
    = (empty_db, Panic) /\
  store_deliveries Debug (sample_clock 0) 1 sample_mailbox [] empty_db = (empty_db, Panic) /\
  @store_dispatched_messages sample_message_id Release (sample_clock 0) 1 sample_mailbox [] empty_db
    = (empty_db, Err QueryError) /\
  store_deliveries Release (sample_clock 0) 1 sample_mailbox [] empty_db = (empty_db, Err QueryError) /\
  (forall mode msgs, msgs <> [] ->
     snd (@store_dispatched_messages sample_message_id mode (sample_clock 0) 1 sample_mailbox msgs empty_db)
       <> Panic) /\
  (forall mode dels, dels <> [] ->
     snd (store_deliveries mode (sample_clock 0) 1 sample_mailbox dels empty_db) <> Panic).
Proof.
  split; [reflexivity|].
  apply (@store_empty_batch_assertion sample_message_id (sample_clock 0) 1 sample_mailbox empty_db).
  reflexivity.
Defined.

(** C7, as stated, fails: [debug_assert!] is compiled out of release
    builds, so there an empty batch is not signalled by an assertion; it
    reaches the database, whose refusal comes back as an ordinary error
    result. *)
Lemma store_empty_batch_release_counterexample :
  @store_dispatched_messages sample_message_id Release (sample_clock 0) 1 sample_mailbox [] empty_db
    = (empty_db, Err QueryError) /\
  store_deliveries Release (sample_clock 0) 1 sample_mailbox [] empty_db = (empty_db, Err QueryError).
Proof. split; reflexivity. Qed.

(** ** The highest nonce *)
















(** ** Reading a message back *)

(** C2: storing the batch of nonces 5 and 2^31 (origin 1) and reading
    both back by nonce: nonce 5 comes back as stored (version 3, empty
    body), but nonce 2^31 is not found, although its row is stored: the
    filter compares the [u32] argument with the column holding
    [nonce as i32]. *)
Theorem retrieve_message_by_nonce_high_nonce_missed :
  let d := fst (@store_dispatched_messages sample_message_id Debug (sample_clock 0) 1 sample_mailbox
                  [sample_storable 1 5 100; sample_storable 1 (2 ^ 31) 101] empty_db) in
  snd (retrieve_message_by_nonce 1 sample_mailbox 5 d) = Ok (Some (sample_message 1 5 [])) /\
  existsb (message_nonce_filter 1 (address_to_bytes sample_mailbox) (u32_as_i32 (2 ^ 31)))
    (messages d) = true /\
  snd (retrieve_message_by_nonce 1 sample_mailbox (2 ^ 31) d) = Ok None.
Proof. vm_compute. repeat split. Qed.

(** * Further properties of the store *)

(** ** The upsert statement, continued *)

Section UpsertMore.
Context {Row Model Key : Type}.
Variable key_dec : forall a b : Key, {a = b} + {a <> b}.
Variable row_key : Row -> Key.
Variable model_key : Model -> Key.
Variable insert_row : Z -> Model -> Row.
Variable update_row : Row -> Model -> Row.
Hypothesis row_key_insert : forall i m, row_key (insert_row i m) = model_key m.
Hypothesis row_key_update : forall r m, row_key (update_row r m) = row_key r.

Let ups := upsert key_dec row_key model_key insert_row update_row.
Let hk := has_key key_dec row_key.

Lemma existsb_hk_key_in k rows :
  existsb (hk k) rows = key_in key_dec k (map row_key rows).
Proof.
  unfold key_in. induction rows as [|r rows IH]; simpl; [reflexivity|].
  rewrite IH. reflexivity.
Qed.

Lemma existsb_hk_keys k rows1 rows2 :
  map row_key rows1 = map row_key rows2 -> existsb (hk k) rows1 = existsb (hk k) rows2.
Proof. intros H. rewrite !existsb_hk_key_in, H. reflexivity. Qed.

Lemma map_key_update k m rows :
  map row_key (map (fun r => if hk k r then update_row r m else r) rows) = map row_key rows.
Proof.
  rewrite map_map. apply map_ext. intros r. destruct (hk k r); [apply row_key_update | reflexivity].
Qed.

(** The sequence only moves forward, whatever the outcome. *)
Lemma upsert_seq_ge seq aff rows models :
  seq <= fst (ups seq aff rows models).
Proof.
  revert seq aff rows. induction models as [|m rest IH]; intros seq aff rows; simpl; [lia|].
  fold hk ups.
  destruct (key_in key_dec (model_key m) aff); simpl; [lia|].
  destruct (existsb (hk (model_key m)) rows);
    [specialize (IH (seq + 1) (model_key m :: aff)
                   (map (fun r => if hk (model_key m) r then update_row r m else r) rows))
    | specialize (IH (seq + 1) (model_key m :: aff) (rows ++ [insert_row seq m]))]; lia.
Qed.

(** The statement succeeds when the proposed keys are pairwise distinct. *)
Lemma upsert_some seq aff rows models :
  NoDup (map model_key models) -> Forall (fun m => ~ In (model_key m) aff) models ->
  exists s' rows', ups seq aff rows models = (s', Some rows').
Proof.
  revert seq aff rows. induction models as [|m rest IH]; intros seq aff rows Hnd Hall.
  - exists seq, rows. reflexivity.
  - simpl in Hnd |- *. fold hk ups. apply NoDup_cons_iff in Hnd. destruct Hnd as [Hnotin Hnd].
    inversion Hall as [|? ? Ha Hall']; subst.
    assert (key_in key_dec (model_key m) aff = false) as ->
      by (destruct (key_in key_dec (model_key m) aff) eqn:E; [|reflexivity];
          apply key_in_spec in E; contradiction).
    assert (Hall2 : Forall (fun m' => ~ In (model_key m') (model_key m :: aff)) rest).
    { rewrite Forall_forall in Hall' |- *. intros m' Hm' [He|Hin].
      - apply Hnotin. rewrite He. apply in_map. exact Hm'.
      - exact (Hall' m' Hm' Hin). }
    destruct (existsb (hk (model_key m)) rows); apply IH; assumption.
Qed.

Lemma upsert_none_iff seq rows models :
  (exists s', ups seq [] rows models = (s', None)) <-> ~ NoDup (map model_key models).
Proof.
  split.
  - intros [s' Hs] Hnd.
    destruct (upsert_some seq [] rows models Hnd) as [s'' [rows' Hs']].
    + apply Forall_forall. intros m _ [].
    + fold ups in Hs. congruence.
  - intros Hnd. destruct (ups seq [] rows models) as [s' [rows'|]] eqn:E.
    + exfalso. apply Hnd. apply (upsert_ok_inv key_dec row_key model_key insert_row update_row
                                   seq [] rows models s' rows' E).
    + exists s'. reflexivity.
Qed.

(** No stored key disappears. *)
Lemma upsert_keys_kept seq aff rows models s' rows' k :
  ups seq aff rows models = (s', Some rows') ->
  In k (map row_key rows) -> In k (map row_key rows').
Proof.
  revert seq aff rows. induction models as [|m rest IH]; intros seq aff rows H Hk.
  - simpl in H. injection H as _ <-. exact Hk.
  - simpl in H. fold hk ups in H.
    destruct (key_in key_dec (model_key m) aff); [discriminate|].
    destruct (existsb (hk (model_key m)) rows); apply IH in H; try exact H.
    + rewrite map_key_update. exact Hk.
    + rewrite map_app. apply in_or_app. left. exact Hk.
Qed.

Section WithId.
Variable row_id : Row -> Z.
Hypothesis row_id_insert : forall i m, row_id (insert_row i m) = i.
Hypothesis row_id_update : forall r m, row_id (update_row r m) = row_id r.

(** Keys stay unique and ids stay below the sequence. *)
Lemma upsert_wf seq aff rows models s' rows' :
  NoDup (map row_key rows) -> Forall (fun r => row_id r < seq) rows ->
  ups seq aff rows models = (s', Some rows') ->
  NoDup (map row_key rows') /\ Forall (fun r => row_id r < s') rows'.
Proof.
  revert seq aff rows. induction models as [|m rest IH]; intros seq aff rows Hnd Hid H.
  - simpl in H. injection H as <- <-. split; assumption.
  - simpl in H. fold hk ups in H.
    destruct (key_in key_dec (model_key m) aff); [discriminate|].
    destruct (existsb (hk (model_key m)) rows) eqn:Ex; apply IH in H; try exact H.
    + rewrite map_key_update. exact Hnd.
    + rewrite Forall_forall in Hid |- *. intros r Hr. apply in_map_iff in Hr.
      destruct Hr as [r0 [<- Hr0]]. specialize (Hid r0 Hr0).
      destruct (hk (model_key m) r0); [rewrite row_id_update|]; lia.
    + rewrite map_app. simpl. rewrite row_key_insert.
      apply NoDup_app; [exact Hnd | constructor; [intros []|constructor] |].
      intros k Hk [He|[]]. subst k.
      unfold hk in Ex. rewrite (existsb_hk_in key_dec row_key (model_key m) rows Hk) in Ex.
      discriminate.
    + apply Forall_app. split.
      * eapply Forall_impl; [|exact Hid]. simpl; intros; lia.
      * constructor; [rewrite row_id_insert; lia | constructor].
Qed.
End WithId.

Lemma count_update (q : Row -> bool) k m rows :
  (forall r m, q (update_row r m) = q r) ->
  length (filter q (map (fun r => if hk k r then update_row r m else r) rows))
  = length (filter q rows).
Proof.
  intros Hqu. induction rows as [|r rows IH]; simpl; [reflexivity|].
  assert (Hr : q (if hk k r then update_row r m else r) = q r)
    by (destruct (hk k r); [apply Hqu | reflexivity]).
  rewrite Hr. destruct (q r); simpl; rewrite IH; reflexivity.
Qed.

(** How many rows satisfy a predicate kept by [update_row] after the
    statement: one more for each proposed row whose key was not stored and
    whose inserted row satisfies it. *)
Lemma upsert_count (q : Row -> bool) (qm : Model -> bool) seq aff rows models s' rows' :
  (forall r m, q (update_row r m) = q r) ->
  (forall i m, seq <= i -> q (insert_row i m) = qm m) ->
  NoDup (map model_key models) ->
  ups seq aff rows models = (s', Some rows') ->
  length (filter q rows') =
    (length (filter q rows) +
     length (filter (fun m => qm m && negb (key_in key_dec (model_key m) (map row_key rows)))
               models))%nat.
Proof.
  revert seq aff rows. induction models as [|m rest IH]; intros seq aff rows Hqu Hqi Hnd H.
  - simpl in H. injection H as _ <-. simpl. lia.
  - simpl in Hnd. apply NoDup_cons_iff in Hnd. destruct Hnd as [Hnotin Hnd].
    simpl in H. fold hk ups in H.
    destruct (key_in key_dec (model_key m) aff); [discriminate|].
    assert (Hrest : forall rows1, (forall m', In m' rest ->
                key_in key_dec (model_key m') (map row_key rows1)
                = key_in key_dec (model_key m') (map row_key rows)) ->
              filter (fun m' => qm m' && negb (key_in key_dec (model_key m') (map row_key rows1))) rest
              = filter (fun m' => qm m' && negb (key_in key_dec (model_key m') (map row_key rows))) rest).
    { intros rows1 Hr1. apply filter_ext_in. intros m' Hm'. rewrite (Hr1 m' Hm'). reflexivity. }
    simpl filter. rewrite <- existsb_hk_key_in.
    destruct (existsb (hk (model_key m)) rows) eqn:Ex.
    + apply IH in H; [|exact Hqu | intros i m' Hi; apply Hqi; lia | exact Hnd].
      rewrite H, count_update by exact Hqu.
      rewrite Hrest by (intros m' _; rewrite map_key_update; reflexivity).
      rewrite andb_false_r. reflexivity.
    + apply IH in H; [|exact Hqu | intros i m' Hi; apply Hqi; lia | exact Hnd].
      rewrite H. rewrite Hrest.
      * rewrite andb_true_r, filter_app, length_app. simpl filter.
        rewrite (Hqi seq m) by lia. destruct (qm m); simpl; lia.
      * intros m' Hm'. rewrite map_app. simpl. rewrite row_key_insert.
        unfold key_in. rewrite existsb_app. simpl.
        destruct (key_dec (model_key m) (model_key m')) as [He|]; [|rewrite orb_false_r; reflexivity].
        exfalso. apply Hnotin. rewrite He. apply in_map. exact Hm'.
Qed.
End UpsertMore.

(** ** The store operations: shape of the resulting store *)

Lemma store_dispatched_messages_cases `{MessageId} mode now domain mb msgs d :
  fst (store_dispatched_messages mode now domain mb msgs d) = d \/
  exists s' o,
    upsert_messages (message_seq d) (messages d)
      (map_clock (fun t => message_active_model t (address_to_bytes mb)) now msgs) = (s', o) /\
    fst (store_dispatched_messages mode now domain mb msgs d)
      = set_messages d (unwrap_or o (messages d)) s' /\
    match o with
    | Some _ => exists n, snd (store_dispatched_messages mode now domain mb msgs d) = Ok n
    | None => snd (store_dispatched_messages mode now domain mb msgs d) = Err CardinalityViolation
    end.
Proof.
  rewrite store_dispatched_messages_eq. destruct (db_up d); [|left; reflexivity]. cbv zeta.
  destruct mode, (is_empty (map_clock (fun t => message_active_model t (address_to_bytes mb)) now msgs));
    try (left; reflexivity);
    right; destruct (upsert_messages (message_seq d) (messages d)
                       (map_clock (fun t => message_active_model t (address_to_bytes mb)) now msgs))
      as [s' [rows|]]; exists s'; eexists;
    (split; [reflexivity|]); simpl; (split; [reflexivity|]);
    first [eexists; reflexivity | reflexivity].
Qed.

Lemma store_deliveries_cases mode now domain mb dels d :
  fst (store_deliveries mode now domain mb dels d) = d \/
  exists s' o,
    upsert_deliveries (delivered_seq d) (delivered_messages d)
      (map_clock (fun t => delivered_active_model t domain (address_to_bytes mb)) now dels) = (s', o) /\
    fst (store_deliveries mode now domain mb dels d)
      = set_deliveries d (unwrap_or o (delivered_messages d)) s' /\
    match o with
    | Some _ => exists n, snd (store_deliveries mode now domain mb dels d) = Ok n
    | None => snd (store_deliveries mode now domain mb dels d) = Err CardinalityViolation
    end.
Proof.
  rewrite store_deliveries_eq. destruct (db_up d); [|left; reflexivity]. cbv zeta.
  destruct mode, (is_empty (map_clock (fun t => delivered_active_model t domain (address_to_bytes mb)) now dels));
    try (left; reflexivity);
    right; destruct (upsert_deliveries (delivered_seq d) (delivered_messages d)
                       (map_clock (fun t => delivered_active_model t domain (address_to_bytes mb)) now dels))
      as [s' [rows|]]; exists s'; eexists;
    (split; [reflexivity|]); simpl; (split; [reflexivity|]);
    first [eexists; reflexivity | reflexivity].
Qed.

(** ** Invariants kept by the store operations *)

(** Both store operations keep the store well formed, whatever their
    outcome: natural keys stay unique ([(origin_mailbox, origin, nonce)]
    for messages, [msg_id] for deliveries) and every id stays below the
    next value of its sequence. *)
Theorem store_keeps_wf :
  (forall `{MessageId} mode now domain mb msgs d,
     db_wf d -> db_wf (fst (store_dispatched_messages mode now domain mb msgs d))) /\
  (forall mode now domain mb dels d,
     db_wf d -> db_wf (fst (store_deliveries mode now domain mb dels d))).
Proof.
  split.
  - intros ? mode now domain mb msgs d Hwf.
    destruct (store_dispatched_messages_cases mode now domain mb msgs d)
      as [-> | [s' [o [Hu [-> _]]]]]; [exact Hwf|].
    unfold upsert_messages in Hu.
    pose proof (upsert_seq_ge message_key_dec message_key message_model_key insert_message_row
                  update_message_row (message_seq d) [] (messages d)
                  (map_clock (fun t => message_active_model t (address_to_bytes mb)) now msgs)) as Hge.
    rewrite Hu in Hge. simpl in Hge.
    destruct Hwf as (H1 & H2 & H3 & H4 & H5 & H6).
    unfold db_wf, set_messages. simpl.
    destruct o as [rows|]; simpl.
    + destruct (upsert_wf message_key_dec message_key message_model_key insert_message_row
                  update_message_row (fun _ _ => eq_refl) (fun _ _ => eq_refl)
                  m_id (fun _ _ => eq_refl) (fun _ _ => eq_refl) _ _ _ _ _ _ H5 H3 Hu)
        as [Hnd Hid].
      repeat split; try assumption; lia.
    + repeat split; try assumption; [lia|].
      eapply Forall_impl; [|exact H3]. simpl; intros; lia.
  - intros mode now domain mb dels d Hwf.
    destruct (store_deliveries_cases mode now domain mb dels d)
      as [-> | [s' [o [Hu [-> _]]]]]; [exact Hwf|].
    unfold upsert_deliveries in Hu.
    pose proof (upsert_seq_ge (list_eq_dec byte_eq_dec) d_msg_id da_msg_id insert_delivered_row
                  update_delivered_row (delivered_seq d) [] (delivered_messages d)
                  (map_clock (fun t => delivered_active_model t domain (address_to_bytes mb)) now dels)) as Hge.
    rewrite Hu in Hge. simpl in Hge.
    destruct Hwf as (H1 & H2 & H3 & H4 & H5 & H6).
    unfold db_wf, set_deliveries. simpl.
    destruct o as [rows|]; simpl.
    + destruct (upsert_wf (list_eq_dec byte_eq_dec) d_msg_id da_msg_id insert_delivered_row
                  update_delivered_row (fun _ _ => eq_refl) (fun _ _ => eq_refl)
                  d_id (fun _ _ => eq_refl) (fun _ _ => eq_refl) _ _ _ _ _ _ H6 H4 Hu)
        as [Hnd Hid].
      repeat split; try assumption; lia.
    + repeat split; try assumption; [lia|].
      eapply Forall_impl; [|exact H4]. simpl; intros; lia.
Qed.

Lemma store_keeps_wf_witness :
  db_wf empty_db /\
  db_wf (fst (@store_dispatched_messages sample_message_id Debug (sample_clock 0) 1 sample_mailbox
                [sample_storable 1 5 100; sample_storable 1 5 101] empty_db)) /\
  db_wf (fst (store_deliveries Release (sample_clock 0) 1 sample_mailbox
                [sample_delivery x01 200; sample_delivery x02 201] empty_db)).
Proof.
  assert (Hwf : db_wf empty_db) by (unfold db_wf; simpl; repeat split; try lia; constructor).
  split; [exact Hwf|]. split.
  - exact (proj1 store_keeps_wf sample_message_id Debug (sample_clock 0) 1 sample_mailbox
             [sample_storable 1 5 100; sample_storable 1 5 101] empty_db Hwf).
  - exact (proj2 store_keeps_wf Release (sample_clock 0) 1 sample_mailbox
             [sample_delivery x01 200; sample_delivery x02 201] empty_db Hwf).
Defined.

(** [store_dispatched_messages] never changes the delivery table nor its
    sequence, and [store_deliveries] never changes the message table nor
    its sequence; when a store aborts, at the [debug_assert!] or with the
    upsert refused for touching a row twice, the rows of the table it
    writes are left as they were. *)
Theorem store_frame_and_rollback :
  (forall `{MessageId} mode now domain mb msgs d,
     let d' := fst (store_dispatched_messages mode now domain mb msgs d) in
     delivered_messages d' = delivered_messages d /\ delivered_seq d' = delivered_seq d /\
     (snd (store_dispatched_messages mode now domain mb msgs d) = Err CardinalityViolation \/
      snd (store_dispatched_messages mode now domain mb msgs d) = Panic ->
      messages d' = messages d)) /\
  (forall mode now domain mb dels d,
     let d' := fst (store_deliveries mode now domain mb dels d) in
     messages d' = messages d /\ message_seq d' = message_seq d /\
     (snd (store_deliveries mode now domain mb dels d) = Err CardinalityViolation \/
      snd (store_deliveries mode now domain mb dels d) = Panic ->
      delivered_messages d' = delivered_messages d)).
Proof.
  split.
  - intros ? mode now domain mb msgs d d'. subst d'.
    destruct (store_dispatched_messages_cases mode now domain mb msgs d)
      as [E | [s' [o [_ [E Hr]]]]]; rewrite E; [repeat split; auto|].
    unfold set_messages; simpl. repeat split.
    intros Hab. destruct o as [rows|]; [|reflexivity].
    destruct Hr as [n Hn]. rewrite Hn in Hab. destruct Hab; discriminate.
  - intros mode now domain mb dels d d'. subst d'.
    destruct (store_deliveries_cases mode now domain mb dels d)
      as [E | [s' [o [_ [E Hr]]]]]; rewrite E; [repeat split; auto|].
    unfold set_deliveries; simpl. repeat split.
    intros Hab. destruct o as [rows|]; [|reflexivity].
    destruct Hr as [n Hn]. rewrite Hn in Hab. destruct Hab; discriminate.
Qed.

Lemma store_frame_and_rollback_witness :
  let d := fst (@store_dispatched_messages sample_message_id Debug (sample_clock 0) 1 sample_mailbox
                  [sample_storable 1 5 100] empty_db) in
  let d' := fst (@store_dispatched_messages sample_message_id Debug (sample_clock 1) 1 sample_mailbox
                   [sample_storable 1 6 101; sample_storable 1 6 102] d) in
  snd (@store_dispatched_messages sample_message_id Debug (sample_clock 1) 1 sample_mailbox
         [sample_storable 1 6 101; sample_storable 1 6 102] d) = Err CardinalityViolation /\
  messages d' = messages d /\ messages d <> [].
Proof.
  intros d d'.
  assert (Hab : snd (@store_dispatched_messages sample_message_id Debug (sample_clock 1) 1 sample_mailbox
                       [sample_storable 1 6 101; sample_storable 1 6 102] d) = Err CardinalityViolation)
    by (vm_compute; reflexivity).
  split; [exact Hab|]. split; [|vm_compute; discriminate].
  exact (proj2 (proj2 (proj1 store_frame_and_rollback sample_message_id Debug (sample_clock 1) 1
                         sample_mailbox [sample_storable 1 6 101; sample_storable 1 6 102] d))
           (or_introl Hab)).
Defined.

(** ** Failure on repeated keys *)

(** With the store reachable and a non-empty batch, the upsert statement
    fails ([ON CONFLICT DO UPDATE] cannot touch a row twice) exactly when
    two entries of the batch share a conflict key:
    [(origin_mailbox, origin as i32, nonce as i32)] for messages, the
    message id for deliveries. *)
Theorem store_cardinality_violation_iff :
  (forall `{MessageId} mode now domain mb msgs d,
     db_up d = true -> msgs <> [] ->
     (snd (store_dispatched_messages mode now domain mb msgs d) = Err CardinalityViolation <->
      ~ NoDup (map (fun s => (address_to_bytes mb, u32_as_i32 (origin (msg s)),
                              u32_as_i32 (nonce (msg s)))) msgs))) /\
  (forall mode now domain mb dels d,
     db_up d = true -> dels <> [] ->
     (snd (store_deliveries mode now domain mb dels d) = Err CardinalityViolation <->
      ~ NoDup (map (fun e => h256_to_bytes (delivery_message_id e)) dels))).
Proof.
  split.
  - intros ? mode now domain mb msgs d Eup Hne.
    rewrite store_dispatched_messages_nonempty by assumption. cbv zeta. unfold upsert_messages.
    assert (Hk : map message_model_key (map_clock (fun t => message_active_model t (address_to_bytes mb)) now msgs)
                 = map (fun s => (address_to_bytes mb, u32_as_i32 (origin (msg s)),
                                  u32_as_i32 (nonce (msg s)))) msgs)
      by (apply map_map_clock; reflexivity).
    rewrite <- Hk, <- (upsert_none_iff message_key_dec message_key message_model_key
                         insert_message_row update_message_row (message_seq d) (messages d)).
    destruct (upsert message_key_dec message_key message_model_key insert_message_row
                update_message_row (message_seq d) [] (messages d)
                (map_clock (fun t => message_active_model t (address_to_bytes mb)) now msgs)) as [s' [rows|]].
    + simpl. split; [discriminate | intros [s'' Hs]; discriminate].
    + simpl. split; [intros _; exists s'; reflexivity | reflexivity].
  - intros mode now domain mb dels d Eup Hne.
    rewrite store_deliveries_nonempty by assumption. cbv zeta. unfold upsert_deliveries.
    assert (Hk : map da_msg_id (map_clock (fun t => delivered_active_model t domain (address_to_bytes mb)) now dels)
                 = map (fun e => h256_to_bytes (delivery_message_id e)) dels)
      by (apply map_map_clock; reflexivity).
    rewrite <- Hk, <- (upsert_none_iff (list_eq_dec byte_eq_dec) d_msg_id da_msg_id
                         insert_delivered_row update_delivered_row (delivered_seq d)
                         (delivered_messages d)).
    destruct (upsert (list_eq_dec byte_eq_dec) d_msg_id da_msg_id insert_delivered_row
                update_delivered_row (delivered_seq d) [] (delivered_messages d)
                (map_clock (fun t => delivered_active_model t domain (address_to_bytes mb)) now dels)) as [s' [rows|]].
    + simpl. split; [discriminate | intros [s'' Hs]; discriminate].
    + simpl. split; [intros _; exists s'; reflexivity | reflexivity].
Qed.

Lemma store_cardinality_violation_iff_witness :
  snd (@store_dispatched_messages sample_message_id Release (sample_clock 0) 1 sample_mailbox
         [sample_storable 1 5 100; sample_storable 1 6 101; sample_storable 1 5 102] empty_db)
    = Err CardinalityViolation <->
  ~ NoDup (map (fun s => (address_to_bytes sample_mailbox, u32_as_i32 (origin (msg s)),
                          u32_as_i32 (nonce (msg s))))
             [sample_storable 1 5 100; sample_storable 1 6 101; sample_storable 1 5 102]).
Proof.
  apply (proj1 store_cardinality_violation_iff sample_message_id Release (sample_clock 0) 1 sample_mailbox
           [sample_storable 1 5 100; sample_storable 1 6 101; sample_storable 1 5 102] empty_db).
  - reflexivity.
  - discriminate.
Defined.

(** ** The count of new rows *)

Lemma watermark_below_seq {R} (f : R -> bool) (id : R -> Z) (rows : list R) (seq : Z) :
  Forall (fun r => id r < seq) rows -> 1 <= seq ->
  unwrap_or (sql_max (map id (filter f rows))) 0 < seq.
Proof.
  intros Hrows Hseq.
  destruct (sql_max (map id (filter f rows))) as [m|] eqn:E; simpl; [|lia].
  apply sql_max_spec in E. destruct E as [Hin _].
  apply in_map_iff in Hin. destruct Hin as [r [<- Hr]].
  apply filter_In in Hr. rewrite Forall_forall in Hrows. apply Hrows. apply Hr.
Qed.

(** On a well-formed store, the count a successful store returns is the
    number of batch entries whose conflict key was not stored before and
    whose row falls under the count's filter: for messages, those whose
    origin (as i32) equals the [domain] argument; for deliveries, all new
    message ids when [domain as i32] equals [domain] (i.e. [domain < 2^31])
    and none otherwise. *)
Theorem store_new_count_exact :
  (forall `{MessageId} mode now domain mb msgs d n,
     db_wf d ->
     snd (store_dispatched_messages mode now domain mb msgs d) = Ok n ->
     n = Z.of_nat (length (filter (fun s =>
           (u32_as_i32 (origin (msg s)) =? domain) &&
           negb (key_in message_key_dec
                   (address_to_bytes mb, u32_as_i32 (origin (msg s)), u32_as_i32 (nonce (msg s)))
                   (map message_key (messages d)))) msgs))) /\
  (forall mode now domain mb dels d n,
     db_wf d ->
     snd (store_deliveries mode now domain mb dels d) = Ok n ->
     n = Z.of_nat (length (filter (fun e =>
           (u32_as_i32 domain =? domain) &&
           negb (key_in (list_eq_dec byte_eq_dec) (h256_to_bytes (delivery_message_id e))
                   (map d_msg_id (delivered_messages d)))) dels))).
Proof.
  split.
  - intros ? mode now domain mb msgs d n Hwf Hs.
    destruct Hwf as (H1 & _ & H3 & _ & _ & _).
    set (mbb := address_to_bytes mb) in *.
    set (b := unwrap_or (sql_max (map m_id (filter (message_filter domain mbb) (messages d)))) 0).
    assert (Hb : b < message_seq d) by (apply watermark_below_seq; assumption).
    assert (Hcnt : forall s' rows,
               upsert_messages (message_seq d) (messages d) (map_clock (fun t => message_active_model t mbb) now msgs)
               = (s', Some rows) ->
               length (filter (fun r => message_filter domain mbb r && (b <? m_id r)) rows)
               = length (filter (fun s =>
                   (u32_as_i32 (origin (msg s)) =? domain) &&
                   negb (key_in message_key_dec
                           (mbb, u32_as_i32 (origin (msg s)), u32_as_i32 (nonce (msg s)))
                           (map message_key (messages d)))) msgs)).
    { intros s' rows Hu. unfold upsert_messages in Hu.
      pose proof (upsert_ok_inv message_key_dec message_key message_model_key insert_message_row
                    update_message_row _ _ _ _ _ _ Hu) as [Hnd _].
      assert (Hqi : forall i a, message_seq d <= i ->
                      (message_filter domain mbb (insert_message_row i a) && (b <? m_id (insert_message_row i a)))
                      = (a_origin a =? domain) && bytes_eqb (a_origin_mailbox a) mbb).
      { intros i a Hi. unfold message_filter. cbn.
        assert ((b <? i) = true) as -> by (apply Z.ltb_lt; lia). apply andb_true_r. }
      rewrite (upsert_count message_key_dec message_key message_model_key insert_message_row
                 update_message_row (fun _ _ => eq_refl) (fun _ _ => eq_refl)
                 (fun r => message_filter domain mbb r && (b <? m_id r))
                 (fun a => (a_origin a =? domain) && bytes_eqb (a_origin_mailbox a) mbb)
                 _ _ _ _ _ _ (fun _ _ => eq_refl) Hqi Hnd Hu).
      unfold b. rewrite count_above_max. simpl.
      apply (length_filter_map_clock (fun t => message_active_model t mbb)).
      intros t s. cbn. rewrite bytes_eqb_refl, andb_true_r. reflexivity. }
    rewrite store_dispatched_messages_eq in Hs. destruct (db_up d); [|discriminate].
    cbv zeta in Hs. fold mbb b in Hs.
    destruct mode, (is_empty (map_clock (fun t => message_active_model t mbb) now msgs)); try discriminate;
      destruct (upsert_messages (message_seq d) (messages d) (map_clock (fun t => message_active_model t mbb) now msgs))
        as [s' [rows|]] eqn:Eu; try discriminate;
      simpl in Hs; injection Hs as <-; rewrite (Hcnt s' rows eq_refl); reflexivity.
  - intros mode now domain mb dels d n Hwf Hs.
    destruct Hwf as (_ & H2 & _ & H4 & _ & _).
    set (mbb := address_to_bytes mb) in *.
    set (b := unwrap_or (sql_max (map d_id (filter (delivery_filter domain mbb)
                                              (delivered_messages d)))) 0).
    assert (Hb : b < delivered_seq d) by (apply watermark_below_seq; assumption).
    assert (Hcnt : forall s' rows,
               upsert_deliveries (delivered_seq d) (delivered_messages d)
                 (map_clock (fun t => delivered_active_model t domain mbb) now dels) = (s', Some rows) ->
               length (filter (fun r => delivery_filter domain mbb r && (b <? d_id r)) rows)
               = length (filter (fun e =>
                   (u32_as_i32 domain =? domain) &&
                   negb (key_in (list_eq_dec byte_eq_dec) (h256_to_bytes (delivery_message_id e))
                           (map d_msg_id (delivered_messages d)))) dels)).
    { intros s' rows Hu. unfold upsert_deliveries in Hu.
      pose proof (upsert_ok_inv (list_eq_dec byte_eq_dec) d_msg_id da_msg_id insert_delivered_row
                    update_delivered_row _ _ _ _ _ _ Hu) as [Hnd _].
      assert (Hqi : forall i a, delivered_seq d <= i ->
                      (delivery_filter domain mbb (insert_delivered_row i a) && (b <? d_id (insert_delivered_row i a)))
                      = (da_domain a =? domain) && bytes_eqb (da_destination_mailbox a) mbb).
      { intros i a Hi. unfold delivery_filter. cbn.
        assert ((b <? i) = true) as -> by (apply Z.ltb_lt; lia). apply andb_true_r. }
      rewrite (upsert_count (list_eq_dec byte_eq_dec) d_msg_id da_msg_id insert_delivered_row
                 update_delivered_row (fun _ _ => eq_refl) (fun _ _ => eq_refl)
                 (fun r => delivery_filter domain mbb r && (b <? d_id r))
                 (fun a => (da_domain a =? domain) && bytes_eqb (da_destination_mailbox a) mbb)
                 _ _ _ _ _ _ (fun _ _ => eq_refl) Hqi Hnd Hu).
      unfold b. rewrite count_above_max. simpl.
      apply (length_filter_map_clock (fun t => delivered_active_model t domain mbb)).
      intros t e. cbn. rewrite bytes_eqb_refl, andb_true_r. reflexivity. }
    rewrite store_deliveries_eq in Hs. destruct (db_up d); [|discriminate].
    cbv zeta in Hs. fold mbb b in Hs.
    destruct mode, (is_empty (map_clock (fun t => delivered_active_model t domain mbb) now dels)); try discriminate;
      destruct (upsert_deliveries (delivered_seq d) (delivered_messages d)
                  (map_clock (fun t => delivered_active_model t domain mbb) now dels))
        as [s' [rows|]] eqn:Eu; try discriminate;
      simpl in Hs; injection Hs as <-; rewrite (Hcnt s' rows eq_refl); reflexivity.
Qed.

Lemma store_new_count_exact_witness :
  let d := fst (@store_dispatched_messages sample_message_id Debug (sample_clock 0) 1 sample_mailbox
                  [sample_storable 1 5 100; sample_storable 1 6 101] empty_db) in
  db_wf d /\
  snd (@store_dispatched_messages sample_message_id Debug (sample_clock 1) 1 sample_mailbox
         [sample_storable 1 5 102; sample_storable 1 7 103] d) = Ok 1 /\
  1 = Z.of_nat (length (filter (fun s =>
        (u32_as_i32 (origin (msg s)) =? 1) &&
        negb (key_in message_key_dec
                (address_to_bytes sample_mailbox, u32_as_i32 (origin (msg s)),
                 u32_as_i32 (nonce (msg s)))
                (map message_key (messages d))))
        [sample_storable 1 5 102; sample_storable 1 7 103])).
Proof.
  intros d.
  assert (Hwf : db_wf d).
  { unfold db_wf. vm_compute. repeat split; try discriminate;
      repeat (constructor || (intros Hin; simpl in Hin;
                              repeat match goal with H : _ \/ _ |- _ => destruct H end;
                              try discriminate; try contradiction)). }
  assert (Hs : snd (@store_dispatched_messages sample_message_id Debug (sample_clock 1) 1 sample_mailbox
                      [sample_storable 1 5 102; sample_storable 1 7 103] d) = Ok 1)
    by (vm_compute; reflexivity).
  split; [exact Hwf|]. split; [exact Hs|].
  exact (proj1 store_new_count_exact sample_message_id Debug (sample_clock 1) 1 sample_mailbox
           [sample_storable 1 5 102; sample_storable 1 7 103] d 1 Hwf Hs).
Defined.

(** ** Insert then look up *)

(** The row a successful store leaves for one entry of the batch. *)
Lemma store_row_of_entry :
  (forall `{MessageId} mode now domain mb msgs d d' n j s,
     NoDup (map message_key (messages d)) ->
     store_dispatched_messages mode now domain mb msgs d = (d', Ok n) ->
     nth_error msgs j = Some s ->
     exists r,
       filter (has_key message_key_dec message_key
                 (address_to_bytes mb, u32_as_i32 (origin (msg s)), u32_as_i32 (nonce (msg s))))
         (messages d') = [r] /\
       m_time_created r = now j /\
       m_destination r = u32_as_i32 (destination (msg s)) /\
       m_sender r = address_to_bytes (sender (msg s)) /\
       m_recipient r = address_to_bytes (recipient (msg s)) /\
       m_msg_body r = (if is_empty (body (msg s)) then None else Some (body (msg s))) /\
       m_origin_tx_id r = txn_id s /\
       (~ In (address_to_bytes mb, u32_as_i32 (origin (msg s)), u32_as_i32 (nonce (msg s)))
             (map message_key (messages d)) ->
        m_msg_id r = h256_to_bytes (message_id (msg s)) /\ message_seq d <= m_id r)) /\
  (forall mode now domain mb dels d d' n j e,
     NoDup (map d_msg_id (delivered_messages d)) ->
     store_deliveries mode now domain mb dels d = (d', Ok n) ->
     nth_error dels j = Some e ->
     exists r,
       filter (has_key (list_eq_dec byte_eq_dec) d_msg_id (h256_to_bytes (delivery_message_id e)))
         (delivered_messages d') = [r] /\
       d_time_created r = now j /\
       d_destination_tx_id r = delivery_txn_id e /\
       (~ In (h256_to_bytes (delivery_message_id e)) (map d_msg_id (delivered_messages d)) ->
        d_domain r = u32_as_i32 domain /\ d_destination_mailbox r = address_to_bytes mb /\
        delivered_seq d <= d_id r)).
Proof.
  split.
  - intros ? mode now domain mb msgs d d' n j s Hnd Hs Hin.
    apply store_dispatched_messages_ok_inv in Hs. destruct Hs as [_ [s' Hu]].
    set (k := (address_to_bytes mb, u32_as_i32 (origin (msg s)), u32_as_i32 (nonce (msg s)))).
    set (a := message_active_model (now j) (address_to_bytes mb) s).
    destruct (upsert_ok_key_messages _ _ _ _ _ Hu k) as [Hupd Hins].
    assert (Ha : In a (map_clock (fun t => message_active_model t (address_to_bytes mb)) now msgs))
      by exact (map_clock_nth (fun t => message_active_model t (address_to_bytes mb)) now msgs j s Hin).
    destruct (filter (has_key message_key_dec message_key k) (messages d)) as [|r0 rest] eqn:Ef.
    + destruct (Hins a Ha eq_refl eq_refl) as [i [Hi Hf]].
      exists (insert_message_row i a). rewrite Hf.
      repeat split; try reflexivity; exact Hi.
    + assert (Hr0 : In r0 (filter (has_key message_key_dec message_key k) (messages d)))
        by (rewrite Ef; left; reflexivity).
      apply filter_In in Hr0. destruct Hr0 as [Hr0 Hk0]. apply has_key_spec in Hk0.
      pose proof (filter_key_unique message_key_dec message_key _ r0 Hnd Hr0) as Hu0.
      rewrite Hk0, Ef in Hu0. injection Hu0 as ->.
      exists (update_message_row r0 a). rewrite (Hupd a Ha eq_refl ltac:(discriminate)).
      repeat split; try reflexivity;
        match goal with Hn : ~ In _ _ |- _ =>
          exfalso; apply Hn; rewrite <- Hk0; apply in_map; exact Hr0 end.
  - intros mode now domain mb dels d d' n j e Hnd Hs Hin.
    apply store_deliveries_ok_inv in Hs. destruct Hs as [_ [_ [s' Hu]]].
    set (k := h256_to_bytes (delivery_message_id e)).
    set (a := delivered_active_model (now j) domain (address_to_bytes mb) e).
    destruct (upsert_ok_key_deliveries _ _ _ _ _ Hu k) as [Hupd Hins].
    assert (Ha : In a (map_clock (fun t => delivered_active_model t domain (address_to_bytes mb)) now dels))
      by exact (map_clock_nth (fun t => delivered_active_model t domain (address_to_bytes mb)) now dels j e Hin).
    destruct (filter (has_key (list_eq_dec byte_eq_dec) d_msg_id k) (delivered_messages d))
      as [|r0 rest] eqn:Ef.
    + destruct (Hins a Ha eq_refl eq_refl) as [i [Hi Hf]].
      exists (insert_delivered_row i a). rewrite Hf.
      repeat split; try reflexivity; exact Hi.
    + assert (Hr0 : In r0 (filter (has_key (list_eq_dec byte_eq_dec) d_msg_id k)
                             (delivered_messages d)))
        by (rewrite Ef; left; reflexivity).
      apply filter_In in Hr0. destruct Hr0 as [Hr0 Hk0]. apply has_key_spec in Hk0.
      pose proof (filter_key_unique (list_eq_dec byte_eq_dec) d_msg_id _ r0 Hnd Hr0) as Hu0.
      rewrite Hk0, Ef in Hu0. injection Hu0 as ->.
      exists (update_delivered_row r0 a). rewrite (Hupd a Ha eq_refl ltac:(discriminate)).
      repeat split; try reflexivity;
        match goal with Hn : ~ In _ _ |- _ =>
          exfalso; apply Hn; rewrite <- Hk0; apply in_map; exact Hr0 end.
Qed.

(** After a successful store on a store whose conflict keys are unique,
    every entry of the batch has exactly one row under its conflict key;
    the row carries the entry's refreshed columns (its time_created is the
    clock reading taken for the entry's position), and, when the key was
    new, also the entry's other columns and an id drawn from the
    sequence. *)
Theorem store_then_lookup :
  (forall `{MessageId} mode now domain mb msgs d d' n j s,
     NoDup (map message_key (messages d)) ->
     store_dispatched_messages mode now domain mb msgs d = (d', Ok n) ->
     nth_error msgs j = Some s ->
     exists r,
       filter (has_key message_key_dec message_key
                 (address_to_bytes mb, u32_as_i32 (origin (msg s)), u32_as_i32 (nonce (msg s))))
         (messages d') = [r] /\
       m_time_created r = now j /\
       m_destination r = u32_as_i32 (destination (msg s)) /\
       m_sender r = address_to_bytes (sender (msg s)) /\
       m_recipient r = address_to_bytes (recipient (msg s)) /\
       m_msg_body r = (if is_empty (body (msg s)) then None else Some (body (msg s))) /\
       m_origin_tx_id r = txn_id s /\
       (~ In (address_to_bytes mb, u32_as_i32 (origin (msg s)), u32_as_i32 (nonce (msg s)))
             (map message_key (messages d)) ->
        m_msg_id r = h256_to_bytes (message_id (msg s)) /\ message_seq d <= m_id r)) /\
  (forall mode now domain mb dels d d' n j e,
     NoDup (map d_msg_id (delivered_messages d)) ->
     store_deliveries mode now domain mb dels d = (d', Ok n) ->
     nth_error dels j = Some e ->
     exists r,
       filter (has_key (list_eq_dec byte_eq_dec) d_msg_id (h256_to_bytes (delivery_message_id e)))
         (delivered_messages d') = [r] /\
       d_time_created r = now j /\
       d_destination_tx_id r = delivery_txn_id e /\
       (~ In (h256_to_bytes (delivery_message_id e)) (map d_msg_id (delivered_messages d)) ->
        d_domain r = u32_as_i32 domain /\ d_destination_mailbox r = address_to_bytes mb /\
        delivered_seq d <= d_id r)).
Proof. exact store_row_of_entry. Qed.

Lemma store_then_lookup_witness :
  let d := fst (@store_dispatched_messages sample_message_id Debug (sample_clock 0) 1 sample_mailbox
                  [sample_storable 1 5 100; sample_storable 1 6 101] empty_db) in
  let d' := fst (@store_dispatched_messages sample_message_id Debug (sample_clock 1) 1 sample_mailbox
                   [sample_storable 1 5 102; sample_storable 1 7 103] d) in
  NoDup (map message_key (messages d)) /\
  @store_dispatched_messages sample_message_id Debug (sample_clock 1) 1 sample_mailbox
    [sample_storable 1 5 102; sample_storable 1 7 103] d = (d', Ok 1) /\
  exists r,
    filter (has_key message_key_dec message_key (address_to_bytes sample_mailbox, 1, 7))
      (messages d') = [r] /\
    m_time_created r = 2 /\ m_origin_tx_id r = 103.
Proof.
  intros d d'.
  assert (Hnd : NoDup (map message_key (messages d))).
  { vm_compute. repeat (constructor || (intros Hin; simpl in Hin;
      repeat match goal with H : _ \/ _ |- _ => destruct H end;
      try discriminate; try contradiction)). }
  assert (Hs : @store_dispatched_messages sample_message_id Debug (sample_clock 1) 1 sample_mailbox
                 [sample_storable 1 5 102; sample_storable 1 7 103] d = (d', Ok 1))
    by (vm_compute; reflexivity).
  split; [exact Hnd|]. split; [exact Hs|].
  destruct (proj1 store_then_lookup sample_message_id Debug (sample_clock 1) 1 sample_mailbox
              [sample_storable 1 5 102; sample_storable 1 7 103] d d' 1 1%nat
              (sample_storable 1 7 103) Hnd Hs eq_refl)
    as [r [Hf [Ht [_ [_ [_ [_ [Htx _]]]]]]]].
  exists r. split; [exact Hf|]. split; [exact Ht | exact Htx].
Defined.

(** ** Store then read back *)

Lemma store_dispatched_messages_ok_up `{MessageId} mode now domain mb msgs d d' n :
  store_dispatched_messages mode now domain mb msgs d = (d', Ok n) -> db_up d' = true.
Proof.
  rewrite store_dispatched_messages_eq. destruct (db_up d) eqn:Eup; [|discriminate]. cbv zeta.
  intros Hs.
  destruct mode, (is_empty (map_clock (fun t => message_active_model t (address_to_bytes mb)) now msgs));
    try discriminate;
    destruct (upsert_messages (message_seq d) (messages d)
                (map_clock (fun t => message_active_model t (address_to_bytes mb)) now msgs)) as [s' [rows|]];
    try discriminate; injection Hs as <- _; exact Eup.
Qed.

Lemma message_nonce_filter_key o mbb n r :
  message_nonce_filter o mbb n r = has_key message_key_dec message_key (mbb, o, n) r.
Proof.
  unfold message_nonce_filter, message_filter, has_key, message_key.
  destruct (message_key_dec (m_origin_mailbox r, m_origin r, m_nonce r) (mbb, o, n)) as [E|E].
  - injection E as -> -> ->. rewrite Z.eqb_refl, bytes_eqb_refl, Z.eqb_refl. reflexivity.
  - destruct (Z.eqb_spec (m_origin r) o) as [Eo|]; simpl; [|reflexivity].
    destruct (bytes_eqb (m_origin_mailbox r) mbb) eqn:Eb; simpl; [|reflexivity].
    apply bytes_eqb_true in Eb.
    destruct (Z.eqb_spec (m_nonce r) n) as [En|]; [|reflexivity].
    exfalso. apply E. rewrite Eo, Eb, En. reflexivity.
Qed.

Lemma forallb_zero_repeat l :
  forallb (Byte.eqb x00) l = true -> l = repeat x00 (length l).
Proof.
  induction l as [|x l IH]; simpl; [reflexivity|].
  intros Hl. apply andb_prop in Hl. destruct Hl as [Hx Hl].
  apply Byte.byte_dec_bl in Hx. rewrite <- Hx, <- IH by exact Hl. reflexivity.
Qed.

Lemma bytes_to_address_to_bytes a :
  length a = 32%nat -> bytes_to_address (address_to_bytes a) = Ok a.
Proof.
  intros Hlen. unfold address_to_bytes, bytes_to_address.
  destruct (forallb (Byte.eqb x00) (firstn 12 a)) eqn:Ez.
  - rewrite length_skipn, Hlen. change (Nat.eqb (32 - 12) 20) with true. cbv iota. f_equal.
    apply forallb_zero_repeat in Ez. rewrite length_firstn, Hlen in Ez.
    change (Nat.min 12 32) with 12%nat in Ez.
    rewrite <- Ez. apply firstn_skipn.
  - rewrite Hlen. reflexivity.
Qed.

Lemma store_entry_row `{MessageId} mode now domain mb msgs d d' n s :
  NoDup (map message_key (messages d)) ->
  store_dispatched_messages mode now domain mb msgs d = (d', Ok n) ->
  In s msgs -> origin (msg s) < 2 ^ 31 -> nonce (msg s) < 2 ^ 31 ->
  exists r,
    filter (message_nonce_filter (origin (msg s)) (address_to_bytes mb) (nonce (msg s)))
      (messages d') = [r] /\
    m_origin r = origin (msg s) /\ m_nonce r = nonce (msg s) /\
    m_destination r = u32_as_i32 (destination (msg s)) /\
    m_sender r = address_to_bytes (sender (msg s)) /\
    m_recipient r = address_to_bytes (recipient (msg s)) /\
    m_msg_body r = (if is_empty (body (msg s)) then None else Some (body (msg s))) /\
    m_origin_tx_id r = txn_id s.
Proof.
  intros Hnd Hs Hin Ho Hn.
  apply In_nth_error in Hin. destruct Hin as [j Hj].
  destruct (proj1 store_row_of_entry _ mode now domain mb msgs d d' n j s Hnd Hs Hj)
    as [r [Hf [_ [Hde [Hse [Hre [Hbo [Htx _]]]]]]]].
  assert (Hr : In r (filter (has_key message_key_dec message_key
                 (address_to_bytes mb, u32_as_i32 (origin (msg s)), u32_as_i32 (nonce (msg s))))
                 (messages d'))) by (rewrite Hf; left; reflexivity).
  apply filter_In in Hr. destruct Hr as [_ Hk]. apply has_key_spec in Hk.
  unfold message_key in Hk. unfold u32_as_i32 in Hk.
  rewrite (proj2 (Z.ltb_lt _ _) Ho), (proj2 (Z.ltb_lt _ _) Hn) in Hk.
  injection Hk as _ Eo En.
  exists r. repeat split; try assumption.
  rewrite (filter_ext _ _ (message_nonce_filter_key _ _ _)).
  unfold u32_as_i32 in Hf.
  rewrite (proj2 (Z.ltb_lt _ _) Ho), (proj2 (Z.ltb_lt _ _) Hn) in Hf. exact Hf.
Qed.

(** Round trip of [store_dispatched_messages] and [retrieve_message_by_nonce]:
    after a successful store on a store whose conflict keys are unique,
    every valid message of the batch whose origin and nonce are below
    2^31 is read back by its origin, mailbox and nonce as it was given,
    with the version set to 3 (an empty body is read back as empty). *)
Theorem store_then_retrieve_message `{MessageId} mode now domain mb msgs d d' n s :
  NoDup (map message_key (messages d)) ->
  store_dispatched_messages mode now domain mb msgs d = (d', Ok n) ->
  In s msgs -> valid_message (msg s) ->
  origin (msg s) < 2 ^ 31 -> nonce (msg s) < 2 ^ 31 ->
  retrieve_message_by_nonce (origin (msg s)) mb (nonce (msg s)) d' =
  (d', Ok (Some {| version := 3; nonce := nonce (msg s); origin := origin (msg s);
                   sender := sender (msg s); destination := destination (msg s);
                   recipient := recipient (msg s); body := body (msg s) |})).
Proof.
  intros Hnd Hs Hin [Hnu [Hou [Hdu [Hsl Hrl]]]] Ho Hn.
  pose proof (store_dispatched_messages_ok_up mode now domain mb msgs d d' n Hs) as Hup.
  destruct (store_entry_row mode now domain mb msgs d d' n s Hnd Hs Hin Ho Hn)
    as [r [Hf [Eo [En [Hde [Hse [Hre [Hbo _]]]]]]]].
  unfold retrieve_message_by_nonce, bind, query, lift, ret.
  rewrite Hup, (find_filter_single _ _ _ Hf), Hse, (bytes_to_address_to_bytes _ Hsl),
    Hre, (bytes_to_address_to_bytes _ Hrl), Eo, En, Hde.
  rewrite !i32_as_u32_u32_as_i32 by assumption.
  unfold i32_as_u32 at 1 2.
  rewrite !Z.mod_small by (unfold is_u32 in *; rewrite andb_true_iff, Z.leb_le, Z.ltb_lt in *; lia).
  replace (unwrap_or (m_msg_body r) []) with (body (msg s))
    by (rewrite Hbo; destruct (body (msg s)); reflexivity).
  reflexivity.
Qed.

Lemma store_then_retrieve_message_witness :
  let d' := fst (@store_dispatched_messages sample_message_id Debug (sample_clock 0) 1 sample_mailbox
                   [sample_storable 1 5 100] empty_db) in
  NoDup (map message_key (messages empty_db)) /\
  @store_dispatched_messages sample_message_id Debug (sample_clock 0) 1 sample_mailbox
    [sample_storable 1 5 100] empty_db = (d', Ok 1) /\
  valid_message (sample_message 1 5 []) /\
  retrieve_message_by_nonce 1 sample_mailbox 5 d' = (d', Ok (Some (sample_message 1 5 []))).
Proof.
  intros d'.
  assert (Hnd : NoDup (map message_key (messages empty_db))) by constructor.
  assert (Hs : @store_dispatched_messages sample_message_id Debug (sample_clock 0) 1 sample_mailbox
                 [sample_storable 1 5 100] empty_db = (d', Ok 1))
    by (vm_compute; reflexivity).
  assert (Hv : valid_message (sample_message 1 5 []))
    by (unfold valid_message; vm_compute; repeat split).
  split; [exact Hnd|]. split; [exact Hs|]. split; [exact Hv|].
  exact (@store_then_retrieve_message sample_message_id Debug (sample_clock 0) 1 sample_mailbox
           [sample_storable 1 5 100] empty_db d' 1 (sample_storable 1 5 100)
           Hnd Hs (or_introl eq_refl) Hv ltac:(vm_compute; reflexivity)
           ltac:(vm_compute; reflexivity)).
Defined.

(** After a successful store on a store whose conflict keys are unique,
    [retrieve_dispatched_tx_id] on the origin, mailbox and nonce of an
    entry of the batch, both below 2^31, returns the entry's transaction
    id. *)
Theorem store_then_dispatched_tx_id `{MessageId} mode now domain mb msgs d d' n s :
  NoDup (map message_key (messages d)) ->
  store_dispatched_messages mode now domain mb msgs d = (d', Ok n) ->
  In s msgs -> origin (msg s) < 2 ^ 31 -> nonce (msg s) < 2 ^ 31 ->
  retrieve_dispatched_tx_id (origin (msg s)) mb (nonce (msg s)) d' = (d', Ok (Some (txn_id s))).
Proof.
  intros Hnd Hs Hin Ho Hn.
  pose proof (store_dispatched_messages_ok_up mode now domain mb msgs d d' n Hs) as Hup.
  destruct (store_entry_row mode now domain mb msgs d d' n s Hnd Hs Hin Ho Hn)
    as [r [Hf [_ [_ [_ [_ [_ [_ Htx]]]]]]]].
  unfold retrieve_dispatched_tx_id, bind, query, lift.
  rewrite Hup, Hf. cbn. rewrite Z.eqb_refl. cbn. rewrite Htx. reflexivity.
Qed.

Lemma store_then_dispatched_tx_id_witness :
  let d := fst (@store_dispatched_messages sample_message_id Debug (sample_clock 0) 1 sample_mailbox
                  [sample_storable 1 5 100; sample_storable 1 6 101] empty_db) in
  let d' := fst (@store_dispatched_messages sample_message_id Debug (sample_clock 1) 1 sample_mailbox
                   [sample_storable 1 5 102; sample_storable 1 7 103] d) in
  NoDup (map message_key (messages d)) /\
  @store_dispatched_messages sample_message_id Debug (sample_clock 1) 1 sample_mailbox
    [sample_storable 1 5 102; sample_storable 1 7 103] d = (d', Ok 1) /\
  retrieve_dispatched_tx_id 1 sample_mailbox 5 d' = (d', Ok (Some 102)).
Proof.
  intros d d'.
  assert (Hnd : NoDup (map message_key (messages d))).
  { vm_compute. repeat (constructor || (intros Hin; simpl in Hin;
      repeat match goal with H : _ \/ _ |- _ => destruct H end;
      try discriminate; try contradiction)). }
  assert (Hs : @store_dispatched_messages sample_message_id Debug (sample_clock 1) 1 sample_mailbox
                 [sample_storable 1 5 102; sample_storable 1 7 103] d = (d', Ok 1))
    by (vm_compute; reflexivity).
  split; [exact Hnd|]. split; [exact Hs|].
  exact (@store_then_dispatched_tx_id sample_message_id Debug (sample_clock 1) 1 sample_mailbox
           [sample_storable 1 5 102; sample_storable 1 7 103] d d' 1 (sample_storable 1 5 102)
           Hnd Hs (or_introl eq_refl) ltac:(vm_compute; reflexivity)
           ltac:(vm_compute; reflexivity)).
Defined.

(** ** Rows outside the batch *)

(** A successful store leaves the rows of every key outside the batch as
    they were, and loses no stored key. *)
Theorem store_keeps_other_rows :
  (forall `{MessageId} mode now domain mb msgs d d' n k,
     store_dispatched_messages mode now domain mb msgs d = (d', Ok n) ->
     (~ In k (map (fun s => (address_to_bytes mb, u32_as_i32 (origin (msg s)),
                             u32_as_i32 (nonce (msg s)))) msgs) ->
        filter (has_key message_key_dec message_key k) (messages d') =
        filter (has_key message_key_dec message_key k) (messages d)) /\
     (In k (map message_key (messages d)) -> In k (map message_key (messages d')))) /\
  (forall mode now domain mb dels d d' n k,
     store_deliveries mode now domain mb dels d = (d', Ok n) ->
     (~ In k (map (fun e => h256_to_bytes (delivery_message_id e)) dels) ->
        filter (has_key (list_eq_dec byte_eq_dec) d_msg_id k) (delivered_messages d') =
        filter (has_key (list_eq_dec byte_eq_dec) d_msg_id k) (delivered_messages d)) /\
     (In k (map d_msg_id (delivered_messages d)) -> In k (map d_msg_id (delivered_messages d')))).
Proof.
  split.
  - intros ? mode now domain mb msgs d d' n k Hs.
    apply store_dispatched_messages_ok_inv in Hs. destruct Hs as [_ [s' Hu]].
    unfold upsert_messages in Hu. split.
    + intros Hk.
      apply (proj1 (upsert_ok_key message_key_dec message_key message_model_key insert_message_row
                      update_message_row (fun _ _ => eq_refl) (fun _ _ => eq_refl) _ _ _ _ _ _ Hu k)).
      rewrite (map_map_clock (fun t => message_active_model t (address_to_bytes mb)) message_model_key
                 (fun s => (address_to_bytes mb, u32_as_i32 (origin (msg s)), u32_as_i32 (nonce (msg s))))
                 now msgs (fun _ _ => eq_refl)).
      exact Hk.
    + intros Hk.
      eapply (upsert_keys_kept message_key_dec message_key message_model_key insert_message_row
                update_message_row); try (intros; reflexivity); eassumption.
  - intros mode now domain mb dels d d' n k Hs.
    apply store_deliveries_ok_inv in Hs. destruct Hs as [_ [_ [s' Hu]]].
    unfold upsert_deliveries in Hu. split.
    + intros Hk.
      apply (proj1 (upsert_ok_key (list_eq_dec byte_eq_dec) d_msg_id da_msg_id insert_delivered_row
                      update_delivered_row (fun _ _ => eq_refl) (fun _ _ => eq_refl) _ _ _ _ _ _ Hu k)).
      erewrite (map_map_clock (fun t => delivered_active_model t domain (address_to_bytes mb)) da_msg_id);
        [exact Hk | intros t e; reflexivity].
    + intros Hk.
      eapply (upsert_keys_kept (list_eq_dec byte_eq_dec) d_msg_id da_msg_id insert_delivered_row
                update_delivered_row); try (intros; reflexivity); eassumption.
Qed.

Lemma store_keeps_other_rows_witness :
  let d := fst (@store_dispatched_messages sample_message_id Debug (sample_clock 0) 1 sample_mailbox
                  [sample_storable 1 5 100; sample_storable 1 6 101] empty_db) in
  let d' := fst (@store_dispatched_messages sample_message_id Debug (sample_clock 1) 1 sample_mailbox
                   [sample_storable 1 5 102; sample_storable 1 7 103] d) in
  let k := (address_to_bytes sample_mailbox, 1, 6) in
  @store_dispatched_messages sample_message_id Debug (sample_clock 1) 1 sample_mailbox
    [sample_storable 1 5 102; sample_storable 1 7 103] d = (d', Ok 1) /\
  ~ In k (map (fun s => (address_to_bytes sample_mailbox, u32_as_i32 (origin (msg s)),
                         u32_as_i32 (nonce (msg s))))
            [sample_storable 1 5 102; sample_storable 1 7 103]) /\
  filter (has_key message_key_dec message_key k) (messages d') =
  filter (has_key message_key_dec message_key k) (messages d) /\
  In k (map message_key (messages d')).
Proof.
  intros d d' k.
  assert (Hs : @store_dispatched_messages sample_message_id Debug (sample_clock 1) 1 sample_mailbox
                 [sample_storable 1 5 102; sample_storable 1 7 103] d = (d', Ok 1))
    by (vm_compute; reflexivity).
  assert (Hk : ~ In k (map (fun s => (address_to_bytes sample_mailbox, u32_as_i32 (origin (msg s)),
                                      u32_as_i32 (nonce (msg s))))
                         [sample_storable 1 5 102; sample_storable 1 7 103])).
  { vm_compute. intros Hin.
    repeat match goal with H : _ \/ _ |- _ => destruct H end; try discriminate; contradiction. }
  assert (Hin : In k (map message_key (messages d))) by (vm_compute; right; left; reflexivity).
  destruct (proj1 store_keeps_other_rows sample_message_id Debug (sample_clock 1) 1 sample_mailbox
              [sample_storable 1 5 102; sample_storable 1 7 103] d d' 1 k Hs) as [Hf Hkept].
  split; [exact Hs|]. split; [exact Hk|]. split; [exact (Hf Hk) | exact (Hkept Hin)].
Defined.

(** ** Watermark and count *)

(** Reading the id watermark and then counting the rows above it, with no
    write in between, counts nothing: no matching row has an id above the
    watermark. *)
Theorem count_since_latest_is_zero domain mbb d :
  db_up d = true ->
  bind (latest_dispatched_id domain mbb) (dispatch_count_since_id domain mbb) d = (d, Ok 0) /\
  bind (latest_deliveries_id domain mbb) (deliveries_count_since_id domain mbb) d = (d, Ok 0).
Proof.
  intros Hup.
  pose proof (count_above_max (message_filter domain mbb) m_id (messages d)) as Em.
  pose proof (count_above_max (delivery_filter domain mbb) d_id (delivered_messages d)) as Ed.
  unfold latest_dispatched_id, dispatch_count_since_id, latest_deliveries_id,
    deliveries_count_since_id, bind, query, ret.
  rewrite !Hup. rewrite Em, Ed. split; reflexivity.
Qed.

Lemma count_since_latest_is_zero_witness :
  let d := fst (@store_dispatched_messages sample_message_id Debug (sample_clock 0) 1 sample_mailbox
                  [sample_storable 1 5 100; sample_storable 1 6 101] empty_db) in
  db_up d = true /\
  bind (latest_dispatched_id 1 (address_to_bytes sample_mailbox))
    (dispatch_count_since_id 1 (address_to_bytes sample_mailbox)) d = (d, Ok 0).
Proof.
  intros d.
  assert (Hup : db_up d = true) by (vm_compute; reflexivity).
  split; [exact Hup|].
  exact (proj1 (count_since_latest_is_zero 1 (address_to_bytes sample_mailbox) d Hup)).
Defined.

(** ** The [i32] columns *)

Section UpsertForall.
Context {Row Model Key : Type}.
Variable key_dec : forall a b : Key, {a = b} + {a <> b}.
Variable row_key : Row -> Key.
Variable model_key : Model -> Key.
Variable insert_row : Z -> Model -> Row.
Variable update_row : Row -> Model -> Row.
Variable P : Row -> Prop.

Lemma upsert_Forall seq aff rows models s' rows' :
  upsert key_dec row_key model_key insert_row update_row seq aff rows models = (s', Some rows') ->
  Forall P rows ->
  (forall r m, In m models -> P r -> P (update_row r m)) ->
  (forall i m, In m models -> P (insert_row i m)) ->
  Forall P rows'.
Proof.
  revert seq aff rows. induction models as [|m rest IH]; intros seq aff rows H Hrows Hupd Hins.
  - simpl in H. injection H as _ <-. exact Hrows.
  - simpl in H.
    destruct (key_in key_dec (model_key m) aff); [discriminate|].
    destruct (existsb (has_key key_dec row_key (model_key m)) rows);
      (eapply IH; [exact H | | intros r m' Hm'; apply Hupd; right; exact Hm'
                            | intros i m' Hm'; apply Hins; right; exact Hm']).
    + apply Forall_map. eapply Forall_impl; [|exact Hrows]. intros r Hr.
      destruct (has_key key_dec row_key (model_key m) r); [apply Hupd; [left; reflexivity|]|];
        exact Hr.
    + apply Forall_app. split; [exact Hrows|]. constructor; [|constructor].
      apply Hins. left. reflexivity.
Qed.
End UpsertForall.

Lemma u32_as_i32_is_i32 x : is_u32 x = true -> is_i32 (u32_as_i32 x) = true.
Proof.
  unfold is_u32, is_i32, u32_as_i32. rewrite !andb_true_iff, !Z.leb_le, !Z.ltb_lt.
  intros Hx. destruct (Z.ltb_spec x (2 ^ 31)); lia.
Qed.

(** Stores of batches whose origins, destinations and nonces are [u32]
    values keep the origin, destination and nonce columns of the message
    table within the [i32] range. *)
Theorem store_keeps_i32_columns `{MessageId} mode now domain mb msgs d :
  Forall (fun s => is_u32 (origin (msg s)) = true /\ is_u32 (destination (msg s)) = true /\
                   is_u32 (nonce (msg s)) = true) msgs ->
  Forall (fun r => is_i32 (m_origin r) = true /\ is_i32 (m_destination r) = true /\
                   is_i32 (m_nonce r) = true) (messages d) ->
  Forall (fun r => is_i32 (m_origin r) = true /\ is_i32 (m_destination r) = true /\
                   is_i32 (m_nonce r) = true)
    (messages (fst (store_dispatched_messages mode now domain mb msgs d))).
Proof.
  intros Hmsgs Hrows.
  destruct (store_dispatched_messages_cases mode now domain mb msgs d)
    as [-> | [s' [o [Hu [-> _]]]]]; [exact Hrows|].
  unfold set_messages. simpl. destruct o as [rows|]; simpl; [|exact Hrows].
  unfold upsert_messages in Hu.
  eapply upsert_Forall; [exact Hu | exact Hrows | |].
  - intros r a Ha (Hro & _ & Hrn). apply in_map_clock in Ha. destruct Ha as [j [s [Hj ->]]].
    pose proof (nth_error_In _ _ Hj) as Hs. rewrite Forall_forall in Hmsgs. destruct (Hmsgs s Hs) as (_ & Hd & _).
    simpl. split; [exact Hro | split; [apply u32_as_i32_is_i32; exact Hd | exact Hrn]].
  - intros i a Ha. apply in_map_clock in Ha. destruct Ha as [j [s [Hj ->]]].
    pose proof (nth_error_In _ _ Hj) as Hs. rewrite Forall_forall in Hmsgs. destruct (Hmsgs s Hs) as (Ho & Hd & Hn).
    simpl. split; [|split]; apply u32_as_i32_is_i32; assumption.
Qed.

Lemma store_keeps_i32_columns_witness :
  Forall (fun s => is_u32 (origin (msg s)) = true /\ is_u32 (destination (msg s)) = true /\
                   is_u32 (nonce (msg s)) = true)
    [sample_storable 1 5 100; sample_storable 1 (2 ^ 31) 101] /\
  Forall (fun r => is_i32 (m_origin r) = true /\ is_i32 (m_destination r) = true /\
                   is_i32 (m_nonce r) = true) (messages empty_db) /\
  Forall (fun r => is_i32 (m_origin r) = true /\ is_i32 (m_destination r) = true /\
                   is_i32 (m_nonce r) = true)
    (messages (fst (@store_dispatched_messages sample_message_id Debug (sample_clock 0) 1 sample_mailbox
                      [sample_storable 1 5 100; sample_storable 1 (2 ^ 31) 101] empty_db))).
Proof.
  assert (Hm : Forall (fun s => is_u32 (origin (msg s)) = true /\
                                is_u32 (destination (msg s)) = true /\
                                is_u32 (nonce (msg s)) = true)
                 [sample_storable 1 5 100; sample_storable 1 (2 ^ 31) 101])
    by (repeat constructor).
  assert (Hr : Forall (fun r => is_i32 (m_origin r) = true /\ is_i32 (m_destination r) = true /\
                                is_i32 (m_nonce r) = true) (messages empty_db))
    by constructor.
  split; [exact Hm|]. split; [exact Hr|].
  exact (@store_keeps_i32_columns sample_message_id Debug (sample_clock 0) 1 sample_mailbox
           [sample_storable 1 5 100; sample_storable 1 (2 ^ 31) 101] empty_db Hm Hr).
Defined.

(** While the nonce column holds [i32] values, a lookup by a nonce of
    2^31 or more finds no row: [retrieve_message_by_nonce] and
    [retrieve_dispatched_tx_id] both return [None], whatever is stored. *)
Theorem retrieve_high_nonce_none o mb n d :
  db_up d = true ->
  Forall (fun r => is_i32 (m_nonce r) = true) (messages d) ->
  2 ^ 31 <= n ->
  retrieve_message_by_nonce o mb n d = (d, Ok None) /\
  retrieve_dispatched_tx_id o mb n d = (d, Ok None).
Proof.
  intros Hup Hrows Hn.
  assert (Hf : filter (message_nonce_filter o (address_to_bytes mb) n) (messages d) = []).
  { apply filter_none. intros r Hr. rewrite Forall_forall in Hrows.
    specialize (Hrows r Hr). unfold is_i32 in Hrows.
    rewrite andb_true_iff, Z.leb_le, Z.ltb_lt in Hrows.
    unfold message_nonce_filter. replace (m_nonce r =? n) with false; [apply andb_false_r|].
    symmetry. apply Z.eqb_neq. lia. }
  unfold retrieve_message_by_nonce, retrieve_dispatched_tx_id, bind, query, lift, ret.
  rewrite Hup, (find_filter_nil _ _ Hf), Hf. split; reflexivity.
Qed.

Lemma retrieve_high_nonce_none_witness :
  let d := fst (@store_dispatched_messages sample_message_id Debug (sample_clock 0) 1 sample_mailbox
                  [sample_storable 1 5 100; sample_storable 1 (2 ^ 31) 101] empty_db) in
  db_up d = true /\
  Forall (fun r => is_i32 (m_nonce r) = true) (messages d) /\
  retrieve_message_by_nonce 1 sample_mailbox (2 ^ 31) d = (d, Ok None) /\
  retrieve_dispatched_tx_id 1 sample_mailbox (2 ^ 31) d = (d, Ok None).
Proof.
  intros d.
  assert (Hup : db_up d = true) by (vm_compute; reflexivity).
  assert (Hr : Forall (fun r => is_i32 (m_nonce r) = true) (messages d)).
  { apply Forall_forall. intros r Hin.
    exact (proj1 (forallb_forall (fun r => is_i32 (m_nonce r)) (messages d))
             ltac:(vm_compute; reflexivity) r Hin). }
  split; [exact Hup|]. split; [exact Hr|].
  exact (retrieve_high_nonce_none 1 sample_mailbox (2 ^ 31) d Hup Hr ltac:(lia)).
Defined.
